(** * Verification of the comment-collection core of youtube-comment-summarizer

    Shallow embedding of the content scripts ([content.js],
    [content-refactored.js], [utils.js], [services/CommentService.js]) and of
    the background rate limiter ([background.js]).

    Conventions:
    - a JavaScript string is the list of its UTF-16 code units, each a [Z];
    - lengths and indices are [nat]; times (milliseconds) are [Z];
    - a thrown exception is the [Throw] branch of [result]. *)

From Stdlib Require Import ZArith Lia Bool.
From stdpp Require Import base list gmap strings.

Open Scope Z_scope.

(** Outcome of a JavaScript computation that may throw. *)
Inductive result (A : Type) : Type :=
| Ok : A -> result A
| Throw : list Z -> result A.
Arguments Ok {A} _.
Arguments Throw {A} _.

(** A string literal as its code units (the literals used are ASCII). *)
Definition js_str (s : string) : list Z :=
  map (fun c => Z.of_nat (Ascii.nat_of_ascii c)) (String.list_ascii_of_string s).

(** ** Text Sanitizer ([utils.js] [TextSanitizer.sanitize], [content.js] [sanitizeText]) *)
Module Sanitizer.

(** The values a caller may pass: only [JSString] is a string. *)
Inductive js_value : Type :=
| JSString : list Z -> js_value
| JSNumber : Z -> js_value
| JSBool : bool -> js_value
| JSNull : js_value
| JSUndefined : js_value
| JSObject : js_value.

(** The character class [[\x00-\x08\x0B\x0C\x0E-\x1F\x7F]]. *)
Definition is_control (c : Z) : bool :=
  ((0 <=? c) && (c <=? 8)) || (c =? 11) || (c =? 12)
  || ((14 <=? c) && (c <=? 31)) || (c =? 127).

(** [.replace(/[\x00-\x08\x0B\x0C\x0E-\x1F\x7F]/g, '')] *)
Definition strip_controls (s : list Z) : list Z :=
  List.filter (fun c => negb (is_control c)) s.

(** [.replace(/\u0000/g, '')] *)
Definition strip_nul (s : list Z) : list Z :=
  List.filter (fun c => negb (c =? 0)) s.

(** ECMAScript WhiteSpace and LineTerminator code units, the set that
    [String.prototype.trim] removes. *)
Definition is_js_whitespace (c : Z) : bool :=
  (c =? 9) || (c =? 10) || (c =? 11) || (c =? 12) || (c =? 13) || (c =? 32)
  || (c =? 160) || (c =? 5760) || ((8192 <=? c) && (c <=? 8202))
  || (c =? 8232) || (c =? 8233) || (c =? 8239) || (c =? 8287)
  || (c =? 12288) || (c =? 65279).

Fixpoint trim_start (s : list Z) : list Z :=
  match s with
  | [] => []
  | c :: r => if is_js_whitespace c then trim_start r else s
  end.

Definition trim_end (s : list Z) : list Z := rev (trim_start (rev s)).

(** [.trim()] *)
Definition trim (s : list Z) : list Z := trim_end (trim_start s).

(** [.substring(0, n)] for a non-negative integer [n]. *)
Definition substring0 (s : list Z) (n : nat) : list Z := firstn n s.

(** [TextSanitizer.sanitize(input, maxLength = 2000)] *)
Definition sanitize (input : js_value) (maxLength : nat) : list Z :=
  match input with
  | JSString s => substring0 (trim (strip_nul (strip_controls s))) maxLength
  | _ => []
  end.

Definition DEFAULT_MAX_LENGTH : nat := 2000%nat.

(** [sanitizeText(text)] of [content.js]: the same body with the constant
    [2000]. *)
Definition sanitizeText (text : js_value) : list Z :=
  match text with
  | JSString s => substring0 (trim (strip_nul (strip_controls s))) 2000
  | _ => []
  end.

(** Specification predicates used by the proofs. *)
Definition starts_nonws (s : list Z) : Prop :=
  match s with [] => True | c :: _ => is_js_whitespace c = false end.

Definition no_controls (s : list Z) : Prop :=
  Forall (fun c => is_control c = false) s.

(** The cleaned and trimmed text before truncation. *)
Definition cleaned (s : list Z) : list Z := trim (strip_nul (strip_controls s)).

(** The input text fits in [n] code units once cleaned and trimmed. *)
Definition fits (v : js_value) (n : nat) : Prop :=
  match v with JSString s => (length (cleaned s) <= n)%nat | _ => True end.

End Sanitizer.

(** ** DOM Comment Locator ([content.js] [findComments],
    [CommentService.findComments]) *)
Module Locator.
Import Sanitizer.

(** A DOM element is seen through its [textContent]; the empty string is
    the falsy [textContent] that the loops skip. *)
Definition node := list Z.

(** The DOM, as the locator sees it: the outcome of
    [querySelectorAll(selector)] for each selector of the selector list,
    in the list's order ([Throw] when the query raises). *)
Definition query_results := list (result (list node)).

Definition mem (t : list Z) (seen : list (list Z)) : bool :=
  bool_decide (t ∈ seen).

(** The inner [for (const element of elements)] loop.  [accept_len] is the
    length test of the revision ([> 5] in [content.js],
    [>= MIN_COMMENT_LENGTH] in [CommentService.js]); [maxc] is the cap of
    the [break].  Returns the [seenTexts] set and the [comments] array. *)
Fixpoint scan (accept_len : nat -> bool) (maxc : nat) (els : list node)
    (seen comments : list (list Z)) : list (list Z) * list (list Z) :=
  match els with
  | [] => (seen, comments)
  | e :: rest =>
      match e with
      | [] => scan accept_len maxc rest seen comments
      | _ =>
          let text := sanitize (JSString e) DEFAULT_MAX_LENGTH in
          if accept_len (length text) && negb (mem text seen) then
            let seen' := text :: seen in
            let comments' := comments ++ [text] in
            if (maxc <=? length comments')%nat then (seen', comments')
            else scan accept_len maxc rest seen' comments'
          else scan accept_len maxc rest seen comments
      end
  end.

(** [content.js]: [text.length > 5]. *)
Definition content_accept (l : nat) : bool := (5 <? l)%nat.

(** [content.js] outer loop over [COMMENT_SELECTORS]: a throwing query is
    caught and skipped; the first selector that leaves [comments]
    non-empty ends the loop. *)
Fixpoint over_selectors (qs : query_results) (seen comments : list (list Z))
    : list (list Z) :=
  match qs with
  | [] => comments
  | Throw _ :: rest => over_selectors rest seen comments
  | Ok els :: rest =>
      let '(seen', comments') := scan content_accept 200 els seen comments in
      if (0 <? length comments')%nat then comments'
      else over_selectors rest seen' comments'
  end.

(** [findComments()] of [content.js].  The preceding
    [await expandReplyThreads()] only changes the DOM, so [qs] is the DOM
    after the expansion. *)
Definition findComments (qs : query_results) : list (list Z) :=
  over_selectors qs [] [].

(** [CONSTANTS.VALIDATION] of [utils.js]. *)
Definition MIN_COMMENT_LENGTH : nat := 5.
Definition MAX_COMMENTS : nat := 200.

Definition service_accept (l : nat) : bool := (MIN_COMMENT_LENGTH <=? l)%nat.

(** What [CommentService] sees inside the cached [#comments] section: the
    [querySelectorAll('#content-text')] outcome and the outcomes for
    [this.commentSelectors.slice(1)]. *)
Record section_dom := {
  content_text : result (list node);
  fallbacks : query_results
}.

(** The fallback loop of [CommentService.findComments]. *)
Fixpoint service_fallback (qs : query_results) (seen comments : list (list Z))
    : list (list Z) :=
  match qs with
  | [] => comments
  | Throw _ :: rest => service_fallback rest seen comments
  | Ok els :: rest =>
      let '(seen', comments') := scan service_accept MAX_COMMENTS els seen comments in
      if (0 <? length comments')%nat then comments'
      else service_fallback rest seen' comments'
  end.

(** [CommentService.findComments()]: [None] is a missing comments section
    (the method returns [[]]); the first query is outside any [try], so its
    exception propagates. *)
Definition service_findComments (sec : option section_dom) : result (list (list Z)) :=
  match sec with
  | None => Ok []
  | Some d =>
      match content_text d with
      | Throw e => Throw e
      | Ok els =>
          if (0 <? length els)%nat then
            Ok (snd (scan service_accept MAX_COMMENTS els [] []))
          else Ok (service_fallback (fallbacks d) [] [])
      end
  end.

End Locator.

(** ** Per-tab rate limiting ([background.js]) *)
Module RateLimit.

(** [RATE_LIMIT.maxRequests], [RATE_LIMIT.windowMs]. *)
Definition maxRequests : nat := 10.
Definition windowMs : Z := 60000.

(** [RATE_LIMIT.requests]: tab key to request timestamps.  The key is
    [String(tabId).substring(0, 100)]; browser tab ids are integers, on
    which that key is injective, so the map is keyed by the id. *)
Abbreviation requests := (gmap Z (list Z)).

Definition rate_limit_message : list Z :=
  js_str "Rate limit exceeded. Please wait before making another request.".

(** [requests.filter(time => now - time < RATE_LIMIT.windowMs)] *)
Definition recent (now : Z) (l : list Z) : list Z :=
  List.filter (fun time => now - time <? windowMs) l.

(** [checkRateLimit(tabId)] at [Date.now() = now]: the new map, or the
    thrown rate-limit error. *)
Definition checkRateLimit (st : requests) (tabId now : Z) : result requests :=
  let tabRequests := default [] (st !! tabId) in
  let recentRequests := recent now tabRequests in
  if (maxRequests <=? length recentRequests)%nat then Throw rate_limit_message
  else Ok (<[tabId := recentRequests ++ [now]]> st).

(** [RateLimitManager.checkRateLimit(tabId)]: [false] instead of a throw. *)
Definition manager_checkRateLimit (st : requests) (tabId now : Z) : bool * requests :=
  let tabRequests := default [] (st !! tabId) in
  let recentRequests := List.filter (fun time => now - time <? 60000) tabRequests in
  if (10 <=? length recentRequests)%nat then (false, st)
  else (true, <[tabId := recentRequests ++ [now]]> st).

(** The periodic cleanup ([setInterval] callback, and
    [RateLimitManager.cleanup]): every entry is filtered, and deleted when
    nothing recent is left. *)
Definition cleanup (st : requests) (now : Z) : requests :=
  omap (fun l => match recent now l with [] => None | r => Some r end) st.

(** Events reaching the background script. *)
Inductive event : Type :=
| Summarize : Z -> Z -> event   (* tab id, Date.now() *)
| Tick : Z -> event.            (* cleanup timer, Date.now() *)

Definition ev_time (e : event) : Z :=
  match e with Summarize _ t => t | Tick t => t end.

(** State: the request map and the log of accepted requests (tab, time). *)
Definition step (s : requests * list (Z * Z)) (e : event) : requests * list (Z * Z) :=
  let '(st, log) := s in
  match e with
  | Summarize tab now =>
      match checkRateLimit st tab now with
      | Ok st' => (st', log ++ [(tab, now)])
      | Throw _ => (st, log)
      end
  | Tick now => (cleanup st now, log)
  end.

Definition run (evs : list event) : requests * list (Z * Z) :=
  fold_left step evs (∅, []).

(** [Date.now()] does not go backwards along the trace. *)
Fixpoint nondecreasing_from (t0 : Z) (evs : list event) : bool :=
  match evs with
  | [] => true
  | e :: rest => (t0 <=? ev_time e) && nondecreasing_from (ev_time e) rest
  end.

Definition nondecreasing (evs : list event) : bool :=
  match evs with [] => true | e :: rest => nondecreasing_from (ev_time e) rest end.

(** Accepted request times of one tab. *)
Definition log_of (log : list (Z * Z)) (tab : Z) : list Z :=
  map snd (List.filter (fun p => p.1 =? tab) log).

(** Accepted requests of [tab] in the window [[t, t + 60000)]. *)
Definition window_count (log : list (Z * Z)) (tab t : Z) : nat :=
  length (List.filter (fun a => (t <=? a) && (a <? t + windowMs)) (log_of log tab)).

End RateLimit.

(** ** Incremental Loader ([content.js] [loadAllCommentsWithScrolling],
    [CommentService.loadCommentsWithScrolling], and the controller of
    [src/unnamed/part_000] [loadCommentsWithScrolling]) *)
Module Loader.

(** The page as the loader observes it.  Index [0] is the call made before
    the loop, index [S i] the call made in iteration [i]. *)
Record page := {
  comments_container : bool;             (* [#comments] is present *)
  scroll0 : Z;                           (* [window.scrollY] at entry *)
  rect_bottom : nat -> Z;                (* [getBoundingClientRect().bottom] in iteration [i] *)
  find : nat -> result (list (list Z));  (* outcome of the DOM steps ending in the recount
                                            ([findComments] and the reply expansion,
                                            load-more click and waits before it) *)
  visible : nat -> result (list (list Z)); (* [loadVisibleComments()] in iteration [i] *)
  load_more : nat -> bool;               (* a load-more button is found in iteration [i] *)
  scroll_height : nat -> Z               (* [document.body.scrollHeight] in iteration [i] *)
}.

Definition failure_prefix : list Z := js_str "Failed to load comments with scrolling: ".

(** The [for] loop: [fuel] attempts left, [i] the iteration index, [y] the
    current [window.scrollY].  Returns the outcome, the scroll position and
    the number of iterations run. *)
Fixpoint iterate (p : page) (delta : Z) (cap : nat) (fuel i : nat) (y : Z)
    (comments : list (list Z)) : result (list (list Z)) * Z * nat :=
  match fuel with
  | O => (Ok comments, y, i)
  | S f =>
      let beforeScrollCount := length comments in
      let y1 := rect_bottom p i + y + delta in
      match find p (S i) with
      | Throw e => (Throw e, y1, S i)
      | Ok cs =>
          if (length cs <=? beforeScrollCount)%nat then (Ok cs, y1, S i)
          else if (cap <=? length cs)%nat then (Ok cs, y1, S i)
          else iterate p delta cap f (S i) y1 cs
      end
  end.

(** The common body of both revisions, [try] block and [catch] rethrow.
    The scroll restore is the last statement of the [try] block. *)
Definition load_with_scrolling (maxScrollAttempts : nat) (delta : Z) (cap : nat)
    (p : page) : result (list (list Z)) * Z * nat :=
  if negb (comments_container p) then
    (Throw (failure_prefix ++ js_str "Comments container not found"), scroll0 p, O)
  else
    let originalScrollY := scroll0 p in
    match find p O with
    | Throw e => (Throw (failure_prefix ++ e), scroll0 p, O)
    | Ok comments =>
        match iterate p delta cap maxScrollAttempts O originalScrollY comments with
        | (Ok cs, _, n) => (Ok (firstn cap cs), originalScrollY, n)
        | (Throw e, y, n) => (Throw (failure_prefix ++ e), y, n)
        end
    end.

(** [content.js]: 5 attempts, 500 px beyond the bottom, cap 200. *)
Definition loadAllCommentsWithScrolling (p : page) :=
  load_with_scrolling 5 500 200 p.

(** [CommentService.js]: 3 attempts, 300 px, cap 150. *)
Definition loadCommentsWithScrolling (p : page) :=
  load_with_scrolling 3 300 150 p.

(** [[...new Set(comments)]]: first occurrences, in order. *)
Fixpoint dedup_aux (seen : list (list Z)) (l : list (list Z)) : list (list Z) :=
  match l with
  | [] => []
  | x :: r => if bool_decide (x ∈ seen) then dedup_aux seen r
              else x :: dedup_aux (x :: seen) r
  end.

Fixpoint controller_loop (p : page) (fuel i : nat) (y : Z) (acc : list (list Z))
    : result (list (list Z)) * Z :=
  match fuel with
  | O => (Ok acc, y)
  | S f =>
      match visible p i with
      | Throw e => (Throw e, y)
      | Ok cs =>
          let y' := if load_more p i then y else scroll_height p i in
          controller_loop p f (S i) y' (acc ++ cs)
      end
  end.

(** [ContentScriptController.loadCommentsWithScrolling] of
    [src/unnamed/part_000]: three attempts, the restore in [finally]. *)
Definition controller_loadCommentsWithScrolling (p : page)
    : result (list (list Z)) * Z :=
  let originalScrollTop := scroll0 p in
  match controller_loop p 3 O originalScrollTop [] with
  | (Ok acc, _) => (Ok (dedup_aux [] acc), originalScrollTop)
  | (Throw e, _) => (Throw e, originalScrollTop)
  end.

(** Every recount succeeds and reports strictly more comments than the
    previous one. *)
Definition growing (p : page) : Prop :=
  forall i, exists a b, find p i = Ok a /\ find p (S i) = Ok b /\
                        (length a < length b)%nat.

End Loader.

(** ** UI Coordinator ([content.js] [summarizeCommentsHandler],
    [deepSummarizeCommentsHandler]; [content-refactored.js]
    [handleSummarizeClick], [requestSummaryFromBackground]) *)
Module Coordinator.
Import Sanitizer.

(** The boxes the extension inserts at the top of [#comments]. *)
Inductive box : Type :=
| LoadingBox : nat -> box
| TempLoadingBox : box
| SummaryBox : list Z -> nat -> box
| ErrorBox : list Z -> box.

Record ui := {
  quick_disabled : bool;       (* [#summarize-comments-btn].disabled *)
  deep_disabled : bool;        (* [#deep-summarize-comments-btn].disabled *)
  boxes : list box;            (* inserted boxes, first child first *)
  has_section : bool           (* [document.querySelector('#comments')] exists *)
}.

Definition set_quick (b : bool) (u : ui) : ui :=
  {| quick_disabled := b; deep_disabled := deep_disabled u; boxes := boxes u;
     has_section := has_section u |}.
Definition set_deep (b : bool) (u : ui) : ui :=
  {| quick_disabled := quick_disabled u; deep_disabled := b; boxes := boxes u;
     has_section := has_section u |}.
Definition set_boxes (l : list box) (u : ui) : ui :=
  {| quick_disabled := quick_disabled u; deep_disabled := deep_disabled u; boxes := l;
     has_section := has_section u |}.

(** [removeSummaryBox()]: every summary, loading and temporary box goes. *)
Definition removeSummaryBox (u : ui) : ui := set_boxes [] u.

(** Removing [#yt-summarize-temp-loading] only. *)
Definition removeTempLoading (u : ui) : ui :=
  set_boxes (List.filter (fun b => match b with TempLoadingBox => false | _ => true end)
                         (boxes u)) u.

Definition insertFirst (b : box) (u : ui) : ui :=
  if has_section u then set_boxes (b :: boxes u) u else u.

(** [showLoading(commentCount)] *)
Definition showLoading (n : nat) (u : ui) : ui := insertFirst (LoadingBox n) (removeSummaryBox u).

(** [showSummary(summary, commentCount, isError)]; the text is passed
    through [sanitizeText] ([content.js]). *)
Definition showSummary (summary : list Z) (n : nat) (isError : bool) (u : ui) : ui :=
  let text := sanitizeText (JSString summary) in
  insertFirst (if isError then ErrorBox text else SummaryBox text n) (removeSummaryBox u).

(** The background's reply: [{summary}], [{error}], or neither field. *)
Inductive response : Type :=
| RespSummary : list Z -> response
| RespError : list Z -> response
| RespEmpty : response.

(** The summarization capability: never settles, or resolves [t] ms after
    the message is sent. *)
Inductive capability : Type :=
| Never : capability
| ResolvesAfter : Z -> response -> capability.

Definition timed_out_message : list Z := js_str "Request timed out".

(** [Promise.race([messagePromise, timeoutPromise])] with the timer of
    [timeout] ms: the outcome and the time after sending at which it
    settles.  A reply arriving at the very moment of the timer is taken to
    lose (the timer callback was queued first). *)
Definition race (c : capability) (timeout : Z) : result response * Z :=
  match c with
  | ResolvesAfter t r => if t <? timeout then (Ok r, t) else (Throw timed_out_message, timeout)
  | Never => (Throw timed_out_message, timeout)
  end.

(** The part of a handler after the request: [response.error] throws,
    [response.summary] is shown, anything else throws. *)
Definition after_response (r : response) (n : nat) (u : ui) : result ui :=
  match r with
  | RespError ((_ :: _) as e) => Throw e
  | RespError [] => Throw (js_str "No summary returned from API")
  | RespSummary s =>
      match s with [] => Throw (js_str "No summary returned from API")
              | _ => Ok (showSummary s n false u) end
  | RespEmpty => Throw (js_str "No summary returned from API")
  end.

(** [loadAllCommentsWithoutScrolling()] of [content.js]. *)
Definition loadAllCommentsWithoutScrolling (qs : Locator.query_results)
    : result (list (list Z)) :=
  match Locator.findComments qs with
  | [] => Throw (js_str "Failed to load visible comments: No visible comments found")
  | cs => Ok (firstn 100 cs)
  end.

(** [summarizeCommentsHandler()] of [content.js]: the final UI and the
    time spent waiting for the request ([0] when it was not sent). *)
Definition summarizeCommentsHandler (qs : Locator.query_results) (c : capability)
    (u0 : ui) : ui * Z :=
  let u1 := set_quick true u0 in
  let '(outcome, waited) :=
    match loadAllCommentsWithoutScrolling qs with
    | Throw e => (Throw e, 0)
    | Ok comments =>
        match comments with
        | [] => (Throw (js_str "No comments found to summarize"), 0)
        | _ =>
            let u2 := showLoading (length comments) u1 in
            match race c 60000 with
            | (Throw e, t) => (Throw e, t)
            | (Ok r, t) => (after_response r (length comments) u2, t)
            end
        end
    end in
  let u3 := match outcome with
            | Ok u => u
            | Throw msg => showSummary msg 0 true (removeSummaryBox u1)
            end in
  (set_quick false u3, waited).

(** [deepSummarizeCommentsHandler()] of [content.js]; the comments come
    from [loadAllCommentsWithScrolling] on the page [pg]. *)
Definition deepSummarizeCommentsHandler (pg : Loader.page) (c : capability)
    (u0 : ui) : ui * Z :=
  let u1 := insertFirst TempLoadingBox (set_deep true (set_quick true u0)) in
  let '(outcome, waited) :=
    match (Loader.loadAllCommentsWithScrolling pg).1.1 with
    | Throw e => (Throw e, 0)
    | Ok comments =>
        let u1' := removeTempLoading u1 in
        match comments with
        | [] => (Throw (js_str "No comments found to summarize"), 0)
        | _ =>
            let u2 := showLoading (length comments) u1' in
            match race c 90000 with
            | (Throw e, t) => (Throw e, t)
            | (Ok r, t) => (after_response r (length comments) u2, t)
            end
        end
    end in
  let u3 := match outcome with
            | Ok u => u
            | Throw msg => showSummary msg 0 true (removeTempLoading (removeSummaryBox u1))
            end in
  (set_deep false (set_quick false u3), waited).

(** [CONSTANTS.API.REQUEST_TIMEOUT], the default [timeout] of
    [requestSummaryFromBackground]. *)
Definition REQUEST_TIMEOUT : Z := 30000.
Definition MAX_COMMENT_LENGTH : nat := 1000.

(** [CommentService.loadVisibleComments()] *)
Definition loadVisibleComments (sec : option Locator.section_dom)
    : result (list (list Z)) :=
  match Locator.service_findComments sec with
  | Throw e => Throw (js_str "Failed to load visible comments: " ++ e)
  | Ok [] => Throw (js_str "Failed to load visible comments: No visible comments found")
  | Ok cs => Ok (firstn 100 cs)
  end.

(** [CommentService.validateAndProcessComments(comments)] *)
Definition validateAndProcessComments (comments : list (list Z)) : result (list (list Z)) :=
  if (length comments <? 1)%nat then Throw (js_str "Comments must have at least 1 item(s)")
  else if (Locator.MAX_COMMENTS <? length comments)%nat
  then Throw (js_str "Comments must have at most 200 item(s)")
  else
    let processed :=
      firstn Locator.MAX_COMMENTS
        (map (fun cm => sanitize (JSString cm) MAX_COMMENT_LENGTH)
           (List.filter (fun cm => let n := length (trim cm) in
                                   (Locator.MIN_COMMENT_LENGTH <=? n)%nat &&
                                   (n <=? MAX_COMMENT_LENGTH)%nat) comments)) in
    match processed with
    | [] => Throw (js_str "No valid comments found after processing")
    | _ => Ok processed
    end.

(** [UIService.showSummary]: the same box, with the text as given (an
    absent summary renders as the empty text). *)
Definition UIService_showSummary (summary : list Z) (n : nat) (isError : bool) (u : ui) : ui :=
  insertFirst (if isError then ErrorBox summary else SummaryBox summary n) (removeSummaryBox u).

(** [setButtonProcessingState(isProcessing)] *)
Definition setButtonProcessingState (b : bool) (u : ui) : ui := set_deep b (set_quick b u).

(** [handleSummarizeClick()] of [content-refactored.js]. *)
Definition handleSummarizeClick (sec : option Locator.section_dom) (c : capability)
    (u0 : ui) : ui * Z :=
  let u1 := setButtonProcessingState true u0 in
  let '(outcome, waited) :=
    match loadVisibleComments sec with
    | Throw e => (Throw e, 0)
    | Ok comments =>
        match validateAndProcessComments comments with
        | Throw e => (Throw e, 0)
        | Ok processed =>
            let u2 := showLoading (length processed) u1 in
            match race c REQUEST_TIMEOUT with
            | (Throw e, t) => (Throw e, t)
            | (Ok r, t) =>
                (match r with
                 | RespError ((_ :: _) as e) => Throw e
                 | RespError [] => Ok (UIService_showSummary [] (length processed) false u2)
                 | RespSummary sm => Ok (UIService_showSummary sm (length processed) false u2)
                 | RespEmpty => Ok (UIService_showSummary [] (length processed) false u2)
                 end, t)
            end
        end
    end in
  let u3 := match outcome with
            | Ok u => u
            | Throw msg => UIService_showSummary msg 0 true (removeSummaryBox u1)
            end in
  (setButtonProcessingState false u3, waited).

End Coordinator.

(** ** Reply Expander ([CommentService.expandReplyThreads],
    [content.js] [expandReplyThreads]) as a timed schedule of clicks *)
Module Expander.

(** A reply button is given by whether it is clickable
    ([offsetParent !== null && !disabled]); a click is its time and the
    button's index. *)
Abbreviation click := (Z * nat)%type.

(** [Array.from(replyButtons).slice(i, i + batchSize)] for every [i], in
    order. *)
Fixpoint chunks_aux (size fuel : nat) (l : list bool) : list (list bool) :=
  match fuel with
  | O => []
  | S f => match l with
           | [] => []
           | _ => firstn size l :: chunks_aux size f (skipn size l)
           end
  end.

Definition chunks (size : nat) (l : list bool) : list (list bool) :=
  chunks_aux size (length l) l.

(** The inner loop: a clickable button is clicked, then 100 ms pass. *)
Fixpoint batch_clicks (t : Z) (i : nat) (batch : list bool) : list click * Z :=
  match batch with
  | [] => ([], t)
  | b :: rest =>
      if b then let '(ev, t') := batch_clicks (t + 100) (S i) rest in ((t, i) :: ev, t')
      else batch_clicks t (S i) rest
  end.

(** The outer loop; the 200 ms pause is taken when another batch follows
    ([i + batchSize < replyButtons.length]). *)
Fixpoint run_batches (t : Z) (i : nat) (cs : list (list bool)) : list click * Z :=
  match cs with
  | [] => ([], t)
  | c :: rest =>
      let '(ev, t1) := batch_clicks t i c in
      let t2 := match rest with [] => t1 | _ => t1 + 200 end in
      let '(ev2, t3) := run_batches t2 (i + length c) rest in
      (ev ++ ev2, t3)
  end.

(** [CONSTANTS.PERFORMANCE.REPLY_EXPANSION_DELAY] *)
Definition REPLY_EXPANSION_DELAY : Z := 1000.

(** One call of [CommentService.expandReplyThreads()] started at [t]: its
    clicks and the time its promise resolves. *)
Definition expandReplyThreads (t : Z) (buttons : list bool) : list click * Z :=
  let '(ev, t1) := run_batches t 0 (chunks 3 buttons) in
  (ev, t1 + REPLY_EXPANSION_DELAY).

(** [content.js]: every clickable reply button, 200 ms apart, then the
    clickable show-more buttons (indices after the reply buttons), then
    1500 ms. *)
Fixpoint click_each (t : Z) (i : nat) (bs : list bool) : list click * Z :=
  match bs with
  | [] => ([], t)
  | b :: rest =>
      if b then let '(ev, t') := click_each (t + 200) (S i) rest in ((t, i) :: ev, t')
      else click_each t (S i) rest
  end.

(** UTF-16 code units of a UTF-8 encoded literal (all characters used
    are in the Basic Multilingual Plane). *)
Fixpoint utf8_decode (fuel : nat) (bs : list Z) : list Z :=
  match fuel, bs with
  | O, _ => []
  | S _, [] => []
  | S f, b :: r =>
      if b <? 128 then b :: utf8_decode f r
      else if b <? 224 then
        match r with
        | c :: r' => (Z.land b 31 * 64 + Z.land c 63) :: utf8_decode f r'
        | [] => []
        end
      else
        match r with
        | c :: d :: r' => (Z.land b 15 * 4096 + Z.land c 63 * 64 + Z.land d 63) :: utf8_decode f r'
        | _ => []
        end
  end.

(** A selector literal, written with ['] for each double quote. *)
Definition sel (s : string) : list Z :=
  map (fun c => if c =? 39 then 34 else c) (utf8_decode (length (js_str s)) (js_str s)).

(** [replyButtonPatterns] of [content.js] [expandReplyThreads]. *)
Definition replyButtonPatterns : list (list Z) := map sel [
  "[aria-label*='View replies']"; "[aria-label*='Show replies']"; "[aria-label*='Replies']"; "[aria-label*='reply']";
  "[aria-label*='View reply']"; "[aria-label*='Show reply']"; "[aria-label*='Reply']";
  "[aria-label*='Ver respuestas']"; "[aria-label*='Mostrar respuestas']"; "[aria-label*='Respuestas']"; "[aria-label*='respuesta']";
  "[aria-label*='Voir les réponses']"; "[aria-label*='Afficher les réponses']"; "[aria-label*='Réponses']"; "[aria-label*='réponse']";
  "[aria-label*='Antworten anzeigen']"; "[aria-label*='Antworten']"; "[aria-label*='antwort']";
  "[aria-label*='Ver respostas']"; "[aria-label*='Mostrar respostas']"; "[aria-label*='Respostas']";
  "[aria-label*='Visualizza risposte']"; "[aria-label*='Mostra risposte']"; "[aria-label*='Risposte']";
  "[aria-label*='返信を表示']"; "[aria-label*='返信']";
  "[aria-label*='답글 보기']"; "[aria-label*='답글']";
  "[aria-label*='查看回复']"; "[aria-label*='显示回复']"; "[aria-label*='回复']";
  "[aria-label*='Показать ответы']"; "[aria-label*='Ответы']";
  "[aria-label*='replies']"; "[aria-label*='reply']"; "[aria-label*='responses']"; "[aria-label*='response']";
  "[aria-label*='comments']"; "[aria-label*='comment']";
  "button:contains('replies')"; "button:contains('reply')"; "button:contains('responses')"; "button:contains('response')";
  "[role='button'][aria-label*='reply']"; "[role='button'][aria-label*='replies']";
  "[data-purpose='view-replies']"; "[data-purpose='show-replies']";
  "button[aria-label*='reply']"; "button[aria-label*='replies']"; "button[aria-label*='response']"; "button[aria-label*='responses']"].

(** [Array.prototype.join(sep)] *)
Fixpoint join_with (sep : list Z) (l : list (list Z)) : list Z :=
  match l with
  | [] => []
  | [x] => x
  | x :: r => x ++ sep ++ join_with sep r
  end.

(** [p] occurs in [s]. *)
Fixpoint occurs (p s : list Z) : bool :=
  match s with
  | [] => bool_decide (p = [])
  | _ :: r => bool_decide (firstn (length p) s = p) || occurs p r
  end.

Definition SyntaxError : list Z := js_str "SyntaxError: not a valid selector".

(** [document.querySelectorAll(selectors)]: [:contains()] is not a CSS
    pseudo-class, so a selector list holding it is rejected with a
    [SyntaxError]; otherwise the matching buttons ([found]). *)
Definition querySelectorAll (selectors : list Z) (found : list bool) : result (list bool) :=
  if occurs (js_str ":contains(") selectors then Throw SyntaxError else Ok found.

(** [content.js] [expandReplyThreads()] started at [t]; [buttons] are the
    reply buttons the two queries would find (the union of the pattern
    and text matches), [more] the show-more buttons.  The first query
    throws, the [catch] only logs, and the promise resolves at once. *)
Definition content_expandReplyThreads (t : Z) (buttons more : list bool) : list click * Z :=
  match querySelectorAll (join_with (js_str ", ") replyButtonPatterns) buttons with
  | Throw _ => ([], t)
  | Ok uniqueButtons =>
      let '(ev1, t1) := click_each t 0 uniqueButtons in
      let '(ev2, t2) := click_each t1 (length uniqueButtons) more in
      (ev1 ++ ev2, t2 + 1500)
  end.

(** Calls started at the given times.  The function keeps no state
    between calls (no pending-timer handle), so each call runs its own
    schedule. *)
Definition invocations (starts : list Z) (buttons : list bool) : list click :=
  flat_map (fun t => (expandReplyThreads t buttons).1) starts.

Definition content_invocations (starts : list Z) (buttons more : list bool) : list click :=
  flat_map (fun t => (content_expandReplyThreads t buttons more).1) starts.

End Expander.

(* ------------------------------------------------------------------ *)
(** ** Navigation monitor (content.js, content-refactored.js, part_000) *)
(* ------------------------------------------------------------------ *)

Module Navigation.

(** The page and script state a navigation signal can touch.  Timers are
    kept as the deadlines of the pending callbacks: [navigationTimeout] is
    the throttle timer of the refactored and part_000 handlers, [reinit]
    the scheduled re-initialisations. *)
Record nav_state := mk_nav {
  href : string;
  pathname : string;
  currentUrl : string;
  registry : list nat;
  summary_boxes : nat;
  button_container : bool;
  isInitialized : bool;
  reinit : list Z;
  navigationTimeout : option Z
}.

Definition set_currentUrl (u : string) (s : nav_state) : nav_state :=
  mk_nav (href s) (pathname s) u (registry s) (summary_boxes s)
    (button_container s) (isInitialized s) (reinit s) (navigationTimeout s).

(** removeSummaryBox: every summary / loading box is removed. *)
Definition removeSummaryBox (s : nav_state) : nav_state :=
  mk_nav (href s) (pathname s) (currentUrl s) (registry s) 0%nat
    (button_container s) (isInitialized s) (reinit s) (navigationTimeout s).

(** performCleanup (content.js and UIService): removes the boxes, the
    temporary loading element and the button container, runs the
    registered callbacks and clears the registry. *)
Definition performCleanup (s : nav_state) : nav_state :=
  let s := removeSummaryBox s in
  mk_nav (href s) (pathname s) (currentUrl s) [] (summary_boxes s)
    false (isInitialized s) (reinit s) (navigationTimeout s).

Definition set_uninitialized (s : nav_state) : nav_state :=
  mk_nav (href s) (pathname s) (currentUrl s) (registry s) (summary_boxes s)
    (button_container s) false (reinit s) (navigationTimeout s).

Definition schedule_reinit (t : Z) (s : nav_state) : nav_state :=
  mk_nav (href s) (pathname s) (currentUrl s) (registry s) (summary_boxes s)
    (button_container s) (isInitialized s) (reinit s ++ [t])
    (navigationTimeout s).

Definition set_timeout (o : option Z) (s : nav_state) : nav_state :=
  mk_nav (href s) (pathname s) (currentUrl s) (registry s) (summary_boxes s)
    (button_container s) (isInitialized s) (reinit s) o.

(** content.js: CONFIG.navigationDelay. *)
Definition navigationDelay : Z := 1000.

(** content.js, NavigationHandler.handleNavigation (unthrottled). *)
Definition content_handleNavigation (now : Z) (s : nav_state) : nav_state :=
  if negb (String.eqb (href s) (currentUrl s)) then
    let s := set_currentUrl (href s) s in
    let s := removeSummaryBox s in
    let s := performCleanup s in
    schedule_reinit (now + navigationDelay) s
  else s.

(** CONSTANTS.PERFORMANCE.NAVIGATION_DELAY and the 100 ms throttle. *)
Definition NAVIGATION_DELAY : Z := 500.
Definition throttle_ms : Z := 100.

(** The throttled handlers: a signal clears the pending throttle timer
    and arms a new one; the callback runs when it fires. *)
Definition signal (now : Z) (s : nav_state) : nav_state :=
  set_timeout (Some (now + throttle_ms)) s.

(** content-refactored.js, ContentScriptController.handleNavigation. *)
Definition refactored_controller_handleNavigation (now : Z) (s : nav_state)
  : nav_state :=
  let s := removeSummaryBox s in
  let s := performCleanup s in
  let s := set_uninitialized s in
  schedule_reinit (now + NAVIGATION_DELAY) s.

(** content-refactored.js, the throttle callback of
    NavigationHandler.handleNavigation. *)
Definition refactored_fire (s : nav_state) : nav_state :=
  match navigationTimeout s with
  | None => s
  | Some d =>
      let s := set_timeout None s in
      if negb (String.eqb (href s) (currentUrl s)) then
        refactored_controller_handleNavigation d (set_currentUrl (href s) s)
      else s
  end.

(** part_000, ContentScriptController.handleNavigation. *)
Definition p0_controller_handleNavigation (now : Z) (s : nav_state)
  : nav_state :=
  let s := set_uninitialized s in
  let s := removeSummaryBox s in
  schedule_reinit (now + 500) s.

(** part_000, the throttle callback of NavigationHandler.handleNavigation:
    only the pathname is tested. *)
Definition p0_fire (s : nav_state) : nav_state :=
  match navigationTimeout s with
  | None => s
  | Some d =>
      let s := set_timeout None s in
      if String.eqb (pathname s) "/watch"%string then
        p0_controller_handleNavigation d s
      else s
  end.

(** What a teardown changes: recorded URL, cleanup registry, injected UI,
    initialisation flag and scheduled re-initialisations. *)
Definition observable (s : nav_state)
  : string * list nat * nat * bool * bool * list Z :=
  (currentUrl s, registry s, summary_boxes s, button_container s,
   isInitialized s, reinit s).

End Navigation.

(* ------------------------------------------------------------------ *)
(** ** Cleanup registry ([content.js] [addCleanup], [UIService.addCleanup]) *)
(* ------------------------------------------------------------------ *)

Module Registry.

(** A JavaScript [Set] of cleanup functions: the functions (by identity)
    in insertion order, without repetition. *)
Definition mem (x : nat) (s : list nat) : bool := existsb (Nat.eqb x) s.

(** [Set.prototype.add]: an element already present keeps its place. *)
Definition set_add (x : nat) (s : list nat) : list nat :=
  if mem x s then s else s ++ [x].

Definition set_delete (x : nat) (s : list nat) : list nat :=
  List.filter (fun y => negb (Nat.eqb y x)) s.

(** The body shared by both revisions, with the size limit [max]: at the
    limit the first value of the iterator (the oldest) is deleted. *)
Definition addCleanup_with (max : nat) (s : list nat) (fn : nat) : list nat :=
  let s := if (max <=? length s)%nat then
             match s with [] => s | oldest :: _ => set_delete oldest s end
           else s in
  set_add fn s.

(** [CONFIG.maxCleanupItems] and [CONSTANTS.PERFORMANCE.MAX_CLEANUP_ITEMS]. *)
Definition maxCleanupItems : nat := 100.
Definition MAX_CLEANUP_ITEMS : nat := 50.

(** [addCleanup(cleanupFn)] of [content.js]. *)
Definition addCleanup (s : list nat) (fn : nat) : list nat :=
  addCleanup_with maxCleanupItems s fn.

(** [UIService.addCleanup(cleanupFunction)]. *)
Definition UIService_addCleanup (s : list nat) (fn : nat) : list nat :=
  addCleanup_with MAX_CLEANUP_ITEMS s fn.

(** A sequence of registrations on an empty registry. *)
Definition register_all (add : list nat -> nat -> list nat) (fns : list nat) : list nat :=
  fold_left add fns [].

End Registry.

(* ------------------------------------------------------------------ *)
(** ** Waiting for [#comments] ([content.js] [waitForCommentsSection],
    [src/unnamed/part_000] [ContentScriptController.waitForCommentsSection]) *)
(* ------------------------------------------------------------------ *)

Module Waiting.

(** Both pollers look at the page once per attempt; [found k] says
    whether the [k]-th look (counting from 1) succeeds.  [poll] makes at
    most [remaining] looks starting with look [k] at time [t], [delay] ms
    apart, and returns the successful look and the time it happened, or
    [None] and the time at which the poller gives up. *)
Fixpoint poll (found : nat -> bool) (delay : Z) (k remaining : nat) (t : Z)
    : option nat * Z :=
  match remaining with
  | O => (None, t)
  | S r => if found k then (Some k, t) else poll found delay (S k) r (t + delay)
  end.

(** [CONFIG.waitTimeout], [CONFIG.retryDelay] of [content.js]. *)
Definition waitTimeout : Z := 10000.
Definition retryDelay : Z := 500.
Definition maxAttempts : nat := Z.to_nat (waitTimeout / retryDelay).

Definition not_found_message : list Z :=
  js_str "Comments section not found within timeout".

(** [waitForCommentsSection()] of [content.js]: [checkForComments] runs at
    once, then every [retryDelay] ms; the call that makes
    [attempts > maxAttempts] rejects without looking.  [visible k]: look
    [k] finds [#comments] with a non-null [offsetParent]. *)
Definition waitForCommentsSection (visible : nat -> bool) : result nat * Z :=
  match poll visible retryDelay 1 maxAttempts 0 with
  | (Some k, t) => (Ok k, t)
  | (None, t) => (Throw not_found_message, t)
  end.

(** [ContentScriptController.waitForCommentsSection()] of part_000: ten
    looks for [#comments], each miss followed by a 500 ms wait; [null]
    ([None]) after the tenth miss and its wait. *)
Definition p0_waitForCommentsSection (present : nat -> bool) : option nat * Z :=
  poll present 500 1 10 0.

End Waiting.

(* ------------------------------------------------------------------ *)
(** ** Initialisation retries ([initializeWithRetry] of
    [content-refactored.js] and part_000) *)
(* ------------------------------------------------------------------ *)

Module Init.

(** [ContentScriptController.initialize()] (both revisions): [found] is
    the outcome of [waitForCommentsSection] ([Ok (Some _)] a section,
    [Ok None] null, [Throw] a rejection); the new [isInitialized].  Every
    exception is caught inside, so the promise never rejects. *)
Definition initialize (isInitialized : bool) (found : result (option nat)) : result bool :=
  if isInitialized then Ok true
  else match found with
       | Ok (Some _) => Ok true
       | Ok None => Ok false
       | Throw _ => Ok false
       end.

(** [initializeWithRetry()]: [while (attempts < 3)], a rejected
    [initialize()] counts an attempt and waits 1000 ms before the next
    one; a fulfilled one breaks the loop.  [init i] is the outcome of the
    [i]-th call.  Result: the number of calls and the time spent waiting. *)
Fixpoint retry_loop {A} (init : nat -> result A) (attempts remaining : nat) (t : Z)
    : nat * Z :=
  match remaining with
  | O => (0%nat, t)
  | S r =>
      match init attempts with
      | Ok _ => (1%nat, t)
      | Throw _ =>
          let attempts := S attempts in
          let t := if (attempts <? 3)%nat then t + 1000 else t in
          let '(n, t') := retry_loop init attempts r t in (S n, t')
      end
  end.

Definition initializeWithRetry {A} (init : nat -> result A) : nat * Z :=
  retry_loop init 0 3 0.

End Init.

(* ------------------------------------------------------------------ *)
(** ** Retry with backoff ([utils.js] [AsyncUtils.retry]) *)
(* ------------------------------------------------------------------ *)

Module Retry.

(** How the promise returned by [retry] settles; [ResolvedUndefined] is
    the implicit [return undefined] after the loop. *)
Inductive settled (A : Type) : Type :=
| Resolved : A -> settled A
| Rejected : list Z -> settled A
| ResolvedUndefined : settled A.
Arguments Resolved {A} _.
Arguments Rejected {A} _.
Arguments ResolvedUndefined {A}.

(** The [for (let attempt = 1; attempt <= maxAttempts; attempt++)] loop
    from [attempt] on, with [remaining] iterations left before the loop
    condition fails; [fn i] is the outcome of the [i]-th call.  Result:
    the settlement, the number of calls of [fn] and the time waited. *)
Fixpoint retry_from {A} (fn : nat -> result A) (maxAttempts : nat) (baseDelay : Z)
    (attempt remaining : nat) (t : Z) : settled A * nat * Z :=
  match remaining with
  | O => (ResolvedUndefined, 0%nat, t)
  | S r =>
      match fn attempt with
      | Ok v => (Resolved v, 1%nat, t)
      | Throw e =>
          if Nat.eqb attempt maxAttempts then (Rejected e, 1%nat, t)
          else
            let delay := baseDelay * 2 ^ (Z.of_nat attempt - 1) in
            let '(o, n, t') := retry_from fn maxAttempts baseDelay (S attempt) r (t + delay) in
            (o, S n, t')
      end
  end.

(** [AsyncUtils.retry(fn, maxAttempts = 3, baseDelay = 1000)] for an
    integer [maxAttempts]; a non-positive one runs no iteration. *)
Definition retry {A} (fn : nat -> result A) (maxAttempts baseDelay : Z) : settled A * nat * Z :=
  retry_from fn (Z.to_nat maxAttempts) baseDelay 1 (Z.to_nat maxAttempts) 0.

Definition is_throw {A} (r : result A) : bool :=
  match r with Throw _ => true | Ok _ => false end.

End Retry.

(* ------------------------------------------------------------------ *)
(** ** Comment validation of part_000 and the quick check of
    [CommentService] *)
(* ------------------------------------------------------------------ *)

Module Validation.
Import Sanitizer.

(** The filter of part_000 [validateAndProcessComments]:
    [comment && typeof comment === 'string' && comment.length > 5 &&
    comment.length < 1000]. *)
Definition p0_keep (v : js_value) : bool :=
  match v with
  | JSString s => (5 <? length s)%nat && (length s <? 1000)%nat
  | _ => false
  end.

(** [ContentScriptController.validateAndProcessComments(comments)] of
    part_000; [None] is a value that is not an array. *)
Definition p0_validateAndProcessComments (comments : option (list js_value))
    : result (list js_value) :=
  match comments with
  | None => Throw (js_str "Invalid comments format")
  | Some [] => Throw (js_str "No comments found")
  | Some cs =>
      let cs := if (200 <? length cs)%nat then firstn 200 cs else cs in
      Ok (List.filter p0_keep cs)
  end.

(** [CONSTANTS.PERFORMANCE.CACHE_TIMEOUT], [VALIDATION.QUICK_CHECK_LIMIT]. *)
Definition CACHE_TIMEOUT : Z := 5000.
Definition QUICK_CHECK_LIMIT : nat := 50.

(** The [#comments] element, seen through its
    [querySelectorAll('#content-text')] outcome. *)
Definition section := result (list Locator.node).

(** [this.domCache]: the cached section ([null] is [None]) and
    [lastCacheTime]. *)
Record dom_cache := { commentsSection : option section; lastCacheTime : Z }.

(** [getCachedCommentsSection()] at [Date.now() = now]; [dom] is what
    [document.querySelector('#comments')] returns now. *)
Definition getCachedCommentsSection (c : dom_cache) (now : Z) (dom : option section)
    : dom_cache * option section :=
  match commentsSection c with
  | Some s =>
      if CACHE_TIMEOUT <? now - lastCacheTime c
      then ({| commentsSection := dom; lastCacheTime := now |}, dom)
      else (c, Some s)
  | None => ({| commentsSection := dom; lastCacheTime := now |}, dom)
  end.

(** [findCommentsWithoutExpanding()]: the loop of [findComments] on
    [#content-text] only, with the cap [QUICK_CHECK_LIMIT]; the query is
    outside any [try]. *)
Definition findCommentsWithoutExpanding (c : dom_cache) (now : Z) (dom : option section)
    : dom_cache * result (list (list Z)) :=
  let '(c', sec) := getCachedCommentsSection c now dom in
  (c', match sec with
       | None => Ok []
       | Some (Throw e) => Throw e
       | Some (Ok els) =>
           Ok (snd (Locator.scan Locator.service_accept QUICK_CHECK_LIMIT els [] []))
       end).

End Validation.

(* ------------------------------------------------------------------ *)
(** ** Request validation of the background script ([background.js]
    [validateComments], [validateSystemPrompt], [validateApiKey] and the
    [summarize] listener) *)
(* ------------------------------------------------------------------ *)

Module Background.
Import Sanitizer.

(** [VALIDATION] *)
Definition maxComments : nat := 100.
Definition maxCommentLength : nat := 1000.
Definition minCommentLength : nat := 5.
Definition maxTotalLength : Z := 50000.
Definition maxPromptLength : Z := 100000.
Definition maxApiKeyLength : nat := 200.

Definition invalid_comments_message : list Z := js_str "Invalid comments data: must be an array".
Definition no_comments_message : list Z := js_str "No comments provided".
Definition too_many_message : list Z := js_str "Too many comments: maximum 100 allowed".
Definition no_valid_message : list Z := js_str "No valid comments found after filtering".
Definition too_long_message : list Z := js_str "Comments too long: total character limit exceeded".

(** The [.filter] callback of [validateComments]. *)
Definition keep (comment : js_value) : bool :=
  match comment with
  | JSString s =>
      let n := length (trim s) in
      (minCommentLength <=? n)%nat && (n <=? maxCommentLength)%nat
  | _ => false
  end.

(** The [.map] callback: [substring(0, 1000)], [trim()], then the two
    [replace] calls.  Only strings reach it. *)
Definition process (comment : js_value) : list Z :=
  match comment with
  | JSString s => strip_nul (strip_controls (trim (substring0 s maxCommentLength)))
  | _ => []
  end.

(** [validateComments(comments)]; [None] is a falsy or non-array value,
    [processedComments.join('').length] is the length of the
    concatenation. *)
Definition validateComments (comments : option (list js_value)) : result (list (list Z)) :=
  match comments with
  | None => Throw invalid_comments_message
  | Some l =>
      if (length l =? 0)%nat then Throw no_comments_message
      else if (maxComments <? length l)%nat then Throw too_many_message
      else
        let processedComments := firstn maxComments (map process (List.filter keep l)) in
        if (length processedComments =? 0)%nat then Throw no_valid_message
        else if maxTotalLength <? Z.of_nat (length (concat processedComments))
        then Throw too_long_message
        else Ok processedComments
  end.

(** [DEFAULT_SYSTEM_PROMPT], ending in two newlines. *)
Definition DEFAULT_SYSTEM_PROMPT : list Z :=
  js_str ("Please provide a concise, flowing summary of the key themes and "
    ++ "overall sentiment from the following YouTube comments. Write in a "
    ++ "natural, readable paragraph format without bullet points or numbered "
    ++ "lists. Focus on the main themes and overall sentiment:") ++ [10; 10].

(** [validateSystemPrompt(prompt)] *)
Definition validateSystemPrompt (prompt : js_value) : list Z :=
  match prompt with
  | JSString s =>
      let trimmed := trim s in
      if (length trimmed =? 0)%nat || (maxPromptLength <? Z.of_nat (length trimmed))
      then DEFAULT_SYSTEM_PROMPT
      else substring0 (strip_controls trimmed) (Z.to_nat maxPromptLength)
  | _ => DEFAULT_SYSTEM_PROMPT
  end.

(** [validateSystemPrompt(systemPrompt) || DEFAULT_SYSTEM_PROMPT] in the
    listener: the empty string is falsy. *)
Definition promptToUse (systemPrompt : js_value) : list Z :=
  match validateSystemPrompt systemPrompt with
  | [] => DEFAULT_SYSTEM_PROMPT
  | p => p
  end.

(** [Array.prototype.join(sep)] *)
Fixpoint join (sep : list Z) (l : list (list Z)) : list Z :=
  match l with
  | [] => []
  | [x] => x
  | x :: r => x ++ sep ++ join sep r
  end.

(** ['\n---\n'] *)
Definition separator : list Z := [10; 45; 45; 45; 10].

Definition combined_too_long_message : list Z := js_str "Combined prompt too long".

(** [fullPrompt = promptToUse + validatedComments.join('\n---\n')] and its
    length check. *)
Definition buildFullPrompt (prompt : list Z) (validatedComments : list (list Z))
    : result (list Z) :=
  let fullPrompt := prompt ++ join separator validatedComments in
  if maxPromptLength <? Z.of_nat (length fullPrompt) then Throw combined_too_long_message
  else Ok fullPrompt.

(** The [keyPattern]s of [AI_PROVIDERS]. *)
Inductive key_pattern : Type :=
| ClaudePattern    (* /^sk-ant-[a-zA-Z0-9\-_]+$/ *)
| OpenAIPattern    (* /^sk-[a-zA-Z0-9]+$/ *)
| GeminiPattern.   (* /^[A-Za-z0-9\-_]{39}$/ *)

Record provider_config := { name : list Z; keyPattern : key_pattern }.

(** [[a-zA-Z0-9]] and [[a-zA-Z0-9\-_]] *)
Definition is_alnum (c : Z) : bool :=
  ((48 <=? c) && (c <=? 57)) || ((65 <=? c) && (c <=? 90)) || ((97 <=? c) && (c <=? 122)).

Definition is_key_char (c : Z) : bool := is_alnum c || (c =? 45) || (c =? 95).

(** The rest of [s] after the literal prefix [p], if [s] starts with it. *)
Fixpoint strip_prefix (p s : list Z) : option (list Z) :=
  match p, s with
  | [], _ => Some s
  | c :: p', d :: s' => if c =? d then strip_prefix p' s' else None
  | _ :: _, [] => None
  end.

(** [keyPattern.test(apiKey)]: the anchored patterns match the whole
    string. *)
Definition key_test (p : key_pattern) (k : list Z) : bool :=
  match p with
  | ClaudePattern =>
      match strip_prefix (js_str "sk-ant-") k with
      | Some (c :: r) => forallb is_key_char (c :: r)
      | _ => false
      end
  | OpenAIPattern =>
      match strip_prefix (js_str "sk-") k with
      | Some (c :: r) => forallb is_alnum (c :: r)
      | _ => false
      end
  | GeminiPattern => (length k =? 39)%nat && forallb is_key_char k
  end.

(** [AI_PROVIDERS[provider]]: an own entry, a property inherited from
    [Object.prototype] (truthy, without [keyPattern]), or [undefined]. *)
Inductive provider_lookup : Type :=
| Own : provider_config -> provider_lookup
| Inherited : provider_lookup
| Absent : provider_lookup.

Definition object_prototype_names : list (list Z) :=
  map js_str ["constructor"; "__defineGetter__"; "__defineSetter__";
    "hasOwnProperty"; "__lookupGetter__"; "__lookupSetter__"; "isPrototypeOf";
    "propertyIsEnumerable"; "toString"; "valueOf"; "__proto__"; "toLocaleString"].

Definition AI_PROVIDERS (provider : list Z) : provider_lookup :=
  if list_eq_dec provider (js_str "claude") then
    Own {| name := js_str "Claude 3.5 Sonnet"; keyPattern := ClaudePattern |}
  else if list_eq_dec provider (js_str "openai") then
    Own {| name := js_str "OpenAI GPT-3.5 Turbo"; keyPattern := OpenAIPattern |}
  else if list_eq_dec provider (js_str "gemini") then
    Own {| name := js_str "Google Gemini Pro"; keyPattern := GeminiPattern |}
  else if existsb (fun n => bool_decide (n = provider)) object_prototype_names
  then Inherited
  else Absent.

Definition invalid_key_type_message : list Z := js_str "Invalid API key type".
Definition invalid_key_length_message : list Z := js_str "Invalid API key length".
Definition invalid_provider_message : list Z := js_str "Invalid AI provider".
Definition invalid_chars_message : list Z := js_str "API key contains invalid characters".

(** The [TypeError] of [providerConfig.keyPattern.test] when [keyPattern]
    is [undefined] (Firefox wording). *)
Definition keyPattern_type_error : list Z :=
  js_str "can't access property " ++ [34] ++ js_str "test" ++ [34]
  ++ js_str ", providerConfig.keyPattern is undefined".

(** [apiKey.includes('<') || ... || apiKey.includes("'")] *)
Definition suspicious (k : list Z) : bool :=
  existsb (fun c => (c =? 60) || (c =? 62) || (c =? 34) || (c =? 39)) k.

(** [validateApiKey(apiKey, provider)] *)
Definition validateApiKey (apiKey : js_value) (provider : list Z) : result bool :=
  match apiKey with
  | JSString k =>
      if (length k <? 10)%nat || (maxApiKeyLength <? length k)%nat
      then Throw invalid_key_length_message
      else match AI_PROVIDERS provider with
           | Absent => Throw invalid_provider_message
           | Inherited => Throw keyPattern_type_error
           | Own cfg =>
               if negb (key_test (keyPattern cfg) k)
               then Throw (js_str "Invalid API key format for " ++ name cfg)
               else if suspicious k then Throw invalid_chars_message
               else Ok true
           end
  | _ => Throw invalid_key_type_message
  end.

(** The listener's checks before storage is read: [checkRateLimit(tabId)]
    and then [validateComments(request.comments)], with the rate-limit
    map after them. *)
Definition summarize_checks (st : RateLimit.requests) (tabId now : Z)
    (comments : option (list js_value)) : RateLimit.requests * result (list (list Z)) :=
  match RateLimit.checkRateLimit st tabId now with
  | Throw m => (st, Throw m)
  | Ok st' => (st', validateComments comments)
  end.

(** Successive requests of one tab: time and [request.comments]. *)
Fixpoint summarize_all (st : RateLimit.requests) (tabId : Z)
    (reqs : list (Z * option (list js_value))) : RateLimit.requests :=
  match reqs with
  | [] => st
  | (now, c) :: r => summarize_all (fst (summarize_checks st tabId now c)) tabId r
  end.

(** The error response of the listener's [catch]. *)
Definition error_response (message : list Z) : list Z :=
  js_str "Error: " ++ firstn 500 message.

End Background.

(* ------------------------------------------------------------------ *)
(** ** Response sanitization ([background.js] [sanitizeApiResponse] and
    [APIService.sanitizeApiResponse], [utils.js]
    [TextSanitizer.sanitizeApiResponse]) *)
(* ------------------------------------------------------------------ *)

Module ResponseSanitizer.
Import Sanitizer.

(** Case folding of the [i] flag on the ASCII letters; no other code unit
    folds onto an ASCII letter. *)
Definition fold (c : Z) : Z := if (65 <=? c) && (c <=? 90) then c + 32 else c.

(** [s] starts with the lower-case literal [p], ignoring case. *)
Fixpoint ci_prefix (p s : list Z) : bool :=
  match p, s with
  | [], _ => true
  | c :: p', d :: s' => (fold d =? c) && ci_prefix p' s'
  | _ :: _, [] => false
  end.

(** [\w] *)
Definition is_word (c : Z) : bool := Background.is_alnum c || (c =? 95).

(** [\b] after a word character: the next code unit, if any, is not one. *)
Definition boundary_after (s : list Z) : bool :=
  match s with [] => true | c :: _ => negb (is_word c) end.

(** Length of the longest prefix of code units satisfying [f]. *)
Fixpoint count_while (f : Z -> bool) (s : list Z) : nat :=
  match s with
  | [] => 0
  | c :: r => if f c then S (count_while f r) else 0
  end.

(** Length of [s] up to and including its first [close], ignoring case. *)
Fixpoint find_close (close s : list Z) : option nat :=
  match s with
  | [] => None
  | _ :: r => if ci_prefix close s then Some (length close)
              else option_map S (find_close close r)
  end.

(** A matcher gives the length of the match at the start of its argument,
    [0] when there is none (no pattern below matches the empty string). *)

(** The block pattern of [script], [iframe] and [object]: [<tag], a word
    boundary, a body, then [<\/tag>].  Every [<] of the body
    must not start [</tag>] and [[^<]] cannot take one, so the match ends
    at the first [</tag>] and fails when there is none. *)
Definition block_match (tag s : list Z) : nat :=
  let open_ := 60 :: tag in
  if ci_prefix open_ s && boundary_after (skipn (length open_) s) then
    match find_close (60 :: 47 :: tag ++ [62]) (skipn (length open_) s) with
    | Some k => length open_ + k
    | None => 0
    end
  else 0.

(** Index just after the last [>] before the first [<] (or the end). *)
Fixpoint last_gt (s : list Z) (i : nat) (best : option nat) : option nat :=
  match s with
  | [] => best
  | c :: r =>
      if c =? 60 then best
      else last_gt r (S i) (if c =? 62 then Some (S i) else best)
  end.

(** [/<tag\b[^<]*>/gi]: [[^<]*] backtracks to the last [>] of its run. *)
Definition void_match (tag s : list Z) : nat :=
  let open_ := 60 :: tag in
  if ci_prefix open_ s && boundary_after (skipn (length open_) s) then
    match last_gt (skipn (length open_) s) 0 None with
    | Some k => length open_ + k
    | None => 0
    end
  else 0.

(** A literal such as [/javascript:/gi]. *)
Definition literal_match (p s : list Z) : nat :=
  if ci_prefix p s then length p else 0.

(** [/on\w+\s*=/gi]: [\w], [\s] and [=] are disjoint, so backtracking
    never helps and both runs are maximal. *)
Definition handler_match (s : list Z) : nat :=
  if ci_prefix (js_str "on") s then
    let r := skipn 2 s in
    let w := count_while is_word r in
    let r' := skipn w r in
    let sp := count_while is_js_whitespace r' in
    match w, skipn sp r' with
    | S _, 61 :: _ => (2 + w + sp + 1)%nat
    | _, _ => 0%nat
    end
  else 0.

(** [/word\s*c/gi], for [/style\s*=/gi] and [/eval\s*\(/gi]. *)
Definition call_match (p : list Z) (c : Z) (s : list Z) : nat :=
  if ci_prefix p s then
    let r := skipn (length p) s in
    let sp := count_while is_js_whitespace r in
    match skipn sp r with
    | d :: _ => if d =? c then (length p + sp + 1)%nat else 0%nat
    | [] => 0%nat
    end
  else 0.

(** [s.replace(re, '')] for a global [re]: the leftmost match is dropped
    and the search goes on after it.  [fuel] bounds the steps; each step
    shortens [s], so [length s] steps suffice. *)
Fixpoint replace_from (m : list Z -> nat) (fuel : nat) (s : list Z) : list Z :=
  match fuel, s with
  | O, _ => s
  | S _, [] => []
  | S f, c :: r =>
      match m s with
      | O => c :: replace_from m f r
      | S n => replace_from m f (skipn (S n) s)
      end
  end.

Definition replace_all (m : list Z -> nat) (s : list Z) : list Z :=
  replace_from m (length s) s.

(** [TextSanitizer.sanitizeApiResponse(text)] of [utils.js]; the method
    [APIService.sanitizeApiResponse] of [background.js] has the same
    body. *)
Definition TextSanitizer_sanitizeApiResponse (text : js_value) : list Z :=
  match text with
  | JSString s =>
      let s := replace_all (block_match (js_str "script")) s in
      let s := replace_all (literal_match (js_str "javascript:")) s in
      let s := replace_all handler_match s in
      let s := replace_all (call_match (js_str "eval") 40) s in
      substring0 (trim s) 5000
  | _ => []
  end.

Definition invalid_response_message : list Z := js_str "Invalid response format".

(** The eleven replacements of [sanitizeApiResponse] in [background.js],
    in order. *)
Definition response_filters : list (list Z -> nat) :=
  [block_match (js_str "script"); block_match (js_str "iframe");
   block_match (js_str "object"); void_match (js_str "embed");
   void_match (js_str "link"); void_match (js_str "meta");
   literal_match (js_str "javascript:"); literal_match (js_str "data:");
   literal_match (js_str "vbscript:"); handler_match; call_match (js_str "style") 61].

(** [sanitizeApiResponse(text)] of [background.js]. *)
Definition sanitizeApiResponse (text : js_value) : list Z :=
  match text with
  | JSString s =>
      let s := fold_left (fun acc m => replace_all m acc) response_filters s in
      substring0 (trim (strip_controls s)) (Z.to_nat 10000)
  | _ => invalid_response_message
  end.

End ResponseSanitizer.

(* ================================================================== *)
(** * Proofs *)
(* ================================================================== *)

Module SanitizerFacts.
Import Sanitizer.

Lemma trim_start_starts (s : list Z) : starts_nonws (trim_start s).
Proof.
  induction s as [|c r IH]; simpl; [exact I|].
  destruct (is_js_whitespace c) eqn:E; simpl; auto.
Qed.

Lemma trim_start_id (s : list Z) : starts_nonws s -> trim_start s = s.
Proof.
  destruct s as [|c r]; simpl; [reflexivity|].
  intros H. rewrite H. reflexivity.
Qed.

Lemma trim_start_suffix (s : list Z) : exists p, s = p ++ trim_start s.
Proof.
  induction s as [|c r [p Hp]]; simpl.
  - exists []. reflexivity.
  - destruct (is_js_whitespace c).
    + exists (c :: p). simpl. rewrite <- Hp. reflexivity.
    + exists []. reflexivity.
Qed.

Lemma trim_end_prefix (s : list Z) : exists q, s = trim_end s ++ q.
Proof.
  unfold trim_end. destruct (trim_start_suffix (rev s)) as [p Hp].
  exists (rev p). rewrite <- rev_app_distr, <- Hp, rev_involutive. reflexivity.
Qed.

Lemma trim_end_idem (s : list Z) : trim_end (trim_end s) = trim_end s.
Proof.
  unfold trim_end. rewrite rev_involutive.
  rewrite (trim_start_id (trim_start (rev s))) by apply trim_start_starts.
  reflexivity.
Qed.

Lemma trim_end_length (s : list Z) : (length (trim_end s) <= length s)%nat.
Proof.
  destruct (trim_end_prefix s) as [q Hq].
  rewrite Hq at 2. rewrite length_app. lia.
Qed.

Lemma starts_nonws_prefix (s q : list Z) :
  starts_nonws (s ++ q) -> starts_nonws s.
Proof. destruct s; simpl; auto. Qed.

Lemma trim_end_starts (s : list Z) : starts_nonws s -> starts_nonws (trim_end s).
Proof.
  intros H. destruct (trim_end_prefix s) as [q Hq].
  rewrite Hq in H. eapply starts_nonws_prefix; eauto.
Qed.

Lemma firstn_starts (s : list Z) (n : nat) :
  starts_nonws s -> starts_nonws (firstn n s).
Proof. destruct n, s; simpl; auto. Qed.

Lemma trim_starts (s : list Z) : starts_nonws (trim s).
Proof. unfold trim. apply trim_end_starts, trim_start_starts. Qed.

Lemma trim_of_starts (s : list Z) : starts_nonws s -> trim s = trim_end s.
Proof. intros H. unfold trim. rewrite trim_start_id; auto. Qed.

Lemma trim_trim_end (s : list Z) : trim (trim s) = trim s.
Proof.
  rewrite trim_of_starts by apply trim_starts.
  unfold trim. apply trim_end_idem.
Qed.

Lemma Forall_trim_start (P : Z -> Prop) (s : list Z) :
  Forall P s -> Forall P (trim_start s).
Proof.
  destruct (trim_start_suffix s) as [p Hp]. rewrite Hp at 1.
  rewrite Forall_app. tauto.
Qed.

Lemma Forall_trim_end (P : Z -> Prop) (s : list Z) :
  Forall P s -> Forall P (trim_end s).
Proof.
  destruct (trim_end_prefix s) as [q Hq]. rewrite Hq at 1.
  rewrite Forall_app. tauto.
Qed.

Lemma Forall_trim (P : Z -> Prop) (s : list Z) :
  Forall P s -> Forall P (trim s).
Proof. intros H. apply Forall_trim_end, Forall_trim_start, H. Qed.

Lemma Forall_firstn' (P : Z -> Prop) (s : list Z) (n : nat) :
  Forall P s -> Forall P (firstn n s).
Proof.
  intros H. rewrite <- (firstn_skipn n s) in H. apply Forall_app in H. tauto.
Qed.

Lemma Forall_filter' (P : Z -> Prop) (f : Z -> bool) (s : list Z) :
  Forall P s -> Forall P (List.filter f s).
Proof.
  induction 1; simpl; [constructor|].
  destruct (f x); auto.
Qed.

Lemma strip_controls_no_controls (s : list Z) : no_controls (strip_controls s).
Proof.
  unfold no_controls, strip_controls. induction s as [|c r IH]; simpl; [constructor|].
  destruct (is_control c) eqn:E; simpl; auto.
Qed.

Lemma filter_id (f : Z -> bool) (s : list Z) :
  Forall (fun c => f c = true) s -> List.filter f s = s.
Proof.
  induction 1 as [|c r Hc _ IH]; simpl; [reflexivity|].
  rewrite Hc, IH. reflexivity.
Qed.

Lemma strip_controls_id (s : list Z) : no_controls s -> strip_controls s = s.
Proof.
  intros H. apply filter_id. eapply Forall_impl; [exact H|].
  intros c Hc. simpl. rewrite Hc. reflexivity.
Qed.

Lemma strip_nul_id (s : list Z) : no_controls s -> strip_nul s = s.
Proof.
  intros H. apply filter_id. eapply Forall_impl; [exact H|].
  intros c Hc. simpl. destruct (c =? 0) eqn:E; [|reflexivity].
  apply Z.eqb_eq in E. subst. discriminate.
Qed.

Lemma cleaned_no_controls (s : list Z) : no_controls (cleaned s).
Proof.
  unfold cleaned. apply Forall_trim, Forall_filter', strip_controls_no_controls.
Qed.

Lemma sanitize_string (s : list Z) (n : nat) :
  sanitize (JSString s) n = firstn n (cleaned s).
Proof. reflexivity. Qed.

Lemma sanitize_no_controls (v : js_value) (n : nat) : no_controls (sanitize v n).
Proof.
  destruct v; simpl; try constructor.
  apply Forall_firstn'. apply cleaned_no_controls.
Qed.

Lemma sanitizeText_is_sanitize (v : js_value) :
  sanitizeText v = sanitize v DEFAULT_MAX_LENGTH.
Proof. destruct v; reflexivity. Qed.

Lemma sanitize_starts (v : js_value) (n : nat) : starts_nonws (sanitize v n).
Proof.
  destruct v; simpl; try exact I.
  apply firstn_starts, trim_starts.
Qed.

Lemma sanitize_length (v : js_value) (n : nat) : (length (sanitize v n) <= n)%nat.
Proof. destruct v; simpl; try lia. unfold substring0. rewrite length_firstn. lia. Qed.

(** Example inputs of the spec: the empty string, a non-string and a
    string of exactly [maxLen + 1] characters. *)
Example sanitize_empty : sanitize (JSString []) 2000 = [].
Proof. reflexivity. Qed.

Example sanitize_non_string : sanitize (JSNumber 42) 2000 = [].
Proof. reflexivity. Qed.

Example sanitize_over_by_one :
  length (sanitize (JSString (repeat 97 2001)) 2000) = 2000%nat.
Proof. vm_compute. reflexivity. Qed.

Example sanitize_strips : sanitize (JSString [32; 0; 104; 7; 105; 127; 10]) 2000 = [104; 105].
Proof. reflexivity. Qed.

(** C2 (refuted): an input whose 2000th cleaned code unit is a space
    followed by more text.  The first pass keeps the space at the end
    (it truncates after trimming); the second pass trims it. *)
Definition c2_input : list Z := repeat 97 1999 ++ [32; 98].

Lemma sanitize_not_idempotent :
  sanitize (JSString (sanitize (JSString c2_input) 2000)) 2000
  <> sanitize (JSString c2_input) 2000.
Proof.
  intros H. apply (f_equal (@length Z)) in H. vm_compute in H. discriminate.
Qed.

(** C2 (amended): sanitizing twice equals sanitizing once and removing the
    trailing whitespace left by truncation; when the cleaned text fits in
    [maxLen], sanitize is idempotent. *)
Theorem sanitize_twice_trims_end (v : js_value) (n : nat) :
  sanitize (JSString (sanitize v n)) n = trim_end (sanitize v n) /\
  (fits v n -> sanitize (JSString (sanitize v n)) n = sanitize v n).
Proof.
  assert (Hgen : sanitize (JSString (sanitize v n)) n = trim_end (sanitize v n)).
  { simpl. pose proof (sanitize_no_controls v n) as Hc.
    rewrite strip_controls_id by exact Hc.
    rewrite strip_nul_id by exact Hc.
    rewrite trim_of_starts by apply sanitize_starts.
    unfold substring0. apply firstn_all2.
    pose proof (trim_end_length (sanitize v n)).
    pose proof (sanitize_length v n). lia. }
  split; [exact Hgen|].
  intros Hfit. rewrite Hgen.
  destruct v as [s| | | | |]; try reflexivity.
  simpl in Hfit |- *. unfold substring0. rewrite firstn_all2 by exact Hfit.
  unfold cleaned, trim. apply trim_end_idem.
Qed.

Lemma sanitize_twice_trims_end_witness :
  fits (JSString [104; 101; 108; 108; 111]) 2000 /\
  sanitize (JSString (sanitize (JSString [104; 101; 108; 108; 111]) 2000)) 2000
  = sanitize (JSString [104; 101; 108; 108; 111]) 2000.
Proof.
  split.
  - simpl. lia.
  - apply (sanitize_twice_trims_end (JSString [104; 101; 108; 108; 111]) 2000).
    simpl. lia.
Defined.

(** C8: for every input and every non-negative [maxLength], the result is
    at most [maxLength] long, holds no control character of the stripped
    class, and is empty for non-string input; [content.js]'s
    [sanitizeText] is the same function at the default length 2000. *)
Theorem sanitize_bounded_clean (v : js_value) (n : nat) :
  (length (sanitize v n) <= n)%nat /\
  no_controls (sanitize v n) /\
  match v with JSString _ => True | _ => sanitize v n = [] end /\
  sanitizeText v = sanitize v DEFAULT_MAX_LENGTH.
Proof.
  split; [apply sanitize_length|].
  split; [apply sanitize_no_controls|].
  split; [destruct v; simpl; auto|].
  apply sanitizeText_is_sanitize.
Qed.

End SanitizerFacts.

Module LocatorFacts.
Import Sanitizer Locator.

Lemma scan_inv (acc : nat -> bool) (maxc : nat) (els : list node) :
  forall (seen comments : list (list Z)),
  (forall x, x ∈ seen <-> x ∈ comments) -> NoDup comments ->
  (length comments < maxc)%nat ->
  (forall x, x ∈ (scan acc maxc els seen comments).1 <->
             x ∈ (scan acc maxc els seen comments).2) /\
  NoDup (scan acc maxc els seen comments).2 /\
  (length (scan acc maxc els seen comments).2 <= maxc)%nat.
Proof.
  induction els as [|e rest IH]; intros seen comments Heq Hnd Hlen; cbn [scan].
  { split; [exact Heq|]. split; [exact Hnd|]. cbn [snd]. lia. }
  destruct e as [|c r]; [apply IH; auto|].
  set (text := sanitize (JSString (c :: r)) DEFAULT_MAX_LENGTH).
  destruct (acc (length text) && negb (mem text seen)) eqn:Hc.
  - apply andb_true_iff in Hc as [_ Hm].
    apply negb_true_iff in Hm. unfold mem in Hm.
    apply bool_decide_eq_false in Hm.
    assert (Hnot : text ∉ comments) by (intros Hin; apply Hm, Heq, Hin).
    assert (Heq' : forall x, x ∈ text :: seen <-> x ∈ comments ++ [text]).
    { intros x. rewrite elem_of_cons, elem_of_app, list_elem_of_singleton, Heq.
      tauto. }
    assert (Hnd' : NoDup (comments ++ [text])).
    { apply NoDup_app. split; [exact Hnd|]. split; [|apply NoDup_singleton].
      intros x Hx Hx'. apply list_elem_of_singleton in Hx'. subst. contradiction. }
    assert (Hl' : length (comments ++ [text]) = S (length comments))
      by (rewrite length_app; simpl; lia).
    destruct (maxc <=? length (comments ++ [text]))%nat eqn:Hm'.
    + cbn [fst snd]. split; [exact Heq'|]. split; [exact Hnd'|]. lia.
    + apply Nat.leb_gt in Hm'. apply IH; auto.
  - apply IH; auto.
Qed.

Lemma over_selectors_inv (qs : query_results) :
  forall (seen comments : list (list Z)),
  (forall x, x ∈ seen <-> x ∈ comments) -> NoDup comments ->
  (length comments < 200)%nat ->
  NoDup (over_selectors qs seen comments) /\
  (length (over_selectors qs seen comments) <= 200)%nat.
Proof.
  induction qs as [|q rest IH]; intros seen comments Heq Hnd Hlen; simpl.
  { split; [exact Hnd|]. lia. }
  destruct q as [els|e]; [|apply IH; auto].
  destruct (scan_inv content_accept 200 els seen comments Heq Hnd Hlen) as (Heq' & Hnd' & Hl').
  destruct (scan content_accept 200 els seen comments) as [seen' comments'] eqn:Hs.
  simpl in *.
  destruct (0 <? length comments')%nat eqn:H0; [auto|].
  apply Nat.ltb_ge in H0. apply IH; auto. lia.
Qed.

Lemma service_fallback_inv (qs : query_results) :
  forall (seen comments : list (list Z)),
  (forall x, x ∈ seen <-> x ∈ comments) -> NoDup comments ->
  (length comments < MAX_COMMENTS)%nat ->
  NoDup (service_fallback qs seen comments) /\
  (length (service_fallback qs seen comments) <= MAX_COMMENTS)%nat.
Proof.
  induction qs as [|q rest IH]; intros seen comments Heq Hnd Hlen; simpl.
  { split; [exact Hnd|]. lia. }
  destruct q as [els|e]; [|apply IH; auto].
  destruct (scan_inv service_accept MAX_COMMENTS els seen comments Heq Hnd Hlen)
    as (Heq' & Hnd' & Hl').
  destruct (scan service_accept MAX_COMMENTS els seen comments) as [seen' comments'] eqn:Hs.
  simpl in *.
  destruct (0 <? length comments')%nat eqn:H0; [auto|].
  apply Nat.ltb_ge in H0. apply IH; auto. unfold MAX_COMMENTS. lia.
Qed.

Lemma empty_inv : forall x : list Z, x ∈ ([] : list (list Z)) <-> x ∈ ([] : list (list Z)).
Proof. tauto. Qed.

(** C6: whatever the DOM, both revisions of the locator return texts
    without duplicates and at most 200 of them ([MAX_COMMENTS] in
    [CommentService]); the service's only non-[Ok] outcome is the
    propagated exception of its first query. *)
Theorem findComments_nodup_bounded (qs : query_results) (sec : option section_dom) :
  NoDup (findComments qs) /\ (length (findComments qs) <= 200)%nat /\
  match service_findComments sec with
  | Ok r => NoDup r /\ (length r <= MAX_COMMENTS)%nat
  | Throw _ => True
  end.
Proof.
  destruct (over_selectors_inv qs [] [] empty_inv (NoDup_nil_2) ltac:(simpl; lia))
    as [H1 H2].
  split; [exact H1|]. split; [exact H2|].
  destruct sec as [d|]; simpl; [|split; [constructor|simpl; unfold MAX_COMMENTS; lia]].
  destruct (content_text d) as [els|e]; [|exact I].
  destruct (0 <? length els)%nat.
  - destruct (scan_inv service_accept MAX_COMMENTS els [] [] empty_inv NoDup_nil_2
      ltac:(unfold MAX_COMMENTS; simpl; lia)) as (_ & Hn & Hl).
    auto.
  - apply service_fallback_inv; [exact empty_inv|constructor|unfold MAX_COMMENTS; simpl; lia].
Qed.

(** The five-character text [hello]. *)
Definition hello : node := [104; 101; 108; 108; 111].

(** C5 (code defect): [content.js] tests [text.length > 5], so a
    non-duplicate sanitized text of exactly 5 characters is rejected;
    [CommentService] ([>= MIN_COMMENT_LENGTH], with the constant 5)
    accepts the same node. *)
Theorem findComments_rejects_five_chars :
  findComments [Ok [hello]] = [] /\
  service_findComments (Some {| content_text := Ok [hello]; fallbacks := [] |})
  = Ok [hello].
Proof. split; reflexivity. Qed.

End LocatorFacts.

Module RateLimitFacts.
Import RateLimit.

(** Number of times at or after [t]. *)
Definition cnt (l : list Z) (t : Z) : nat := length (List.filter (fun a => t <=? a) l).

Definition stored (st : requests) (tab : Z) : list Z := default [] (st !! tab).

(** Invariant after a prefix of the trace whose last time is [c]: every
    logged time is at most [c], and for every threshold still inside the
    window the stored list and the log count the same times. *)
Definition inv (st : requests) (log : list (Z * Z)) (c : Z) : Prop :=
  (forall p, In p log -> p.2 <= c) /\
  (forall tab t, c - t < windowMs -> cnt (stored st tab) t = cnt (log_of log tab) t).

Definition window_ok (log : list (Z * Z)) : Prop :=
  forall tab t, (window_count log tab t <= maxRequests)%nat.

Lemma cnt_app (l1 l2 : list Z) (t : Z) : cnt (l1 ++ l2) t = (cnt l1 t + cnt l2 t)%nat.
Proof. unfold cnt. rewrite List.filter_app, length_app. reflexivity. Qed.

Lemma cnt_recent (now t : Z) (l : list Z) :
  now - t < windowMs -> cnt (recent now l) t = cnt l t.
Proof.
  intros Ht. unfold cnt, recent. induction l as [|a r IH]; simpl; [reflexivity|].
  destruct (t <=? a) eqn:E1.
  - assert (E2 : (now - a <? windowMs) = true)
      by (apply Z.leb_le in E1; apply Z.ltb_lt; lia).
    rewrite E2. simpl. rewrite E1. simpl. f_equal. exact IH.
  - destruct (now - a <? windowMs); simpl; rewrite ?E1; exact IH.
Qed.

Lemma cnt_le_length (l : list Z) (t : Z) : (cnt l t <= length l)%nat.
Proof. unfold cnt. apply List.filter_length_le. Qed.

Lemma window_all_below (l : list Z) (t : Z) :
  (forall a, In a l -> a < t + windowMs) ->
  length (List.filter (fun a => (t <=? a) && (a <? t + windowMs)) l) = cnt l t.
Proof.
  unfold cnt. induction l as [|a r IH]; intros H; simpl; [reflexivity|].
  assert (Ha : (a <? t + windowMs) = true) by (apply Z.ltb_lt, H; left; reflexivity).
  rewrite Ha, andb_true_r.
  destruct (t <=? a); simpl; rewrite IH; auto; intros b Hb; apply H; right; exact Hb.
Qed.

Lemma log_of_snoc (log : list (Z * Z)) (k now tab : Z) :
  log_of (log ++ [(k, now)]) tab = log_of log tab ++ (if k =? tab then [now] else []).
Proof.
  unfold log_of. rewrite List.filter_app, map_app. simpl.
  destruct (k =? tab); reflexivity.
Qed.

Lemma log_of_in (log : list (Z * Z)) (tab a : Z) :
  In a (log_of log tab) -> exists p, In p log /\ p.2 = a.
Proof.
  unfold log_of. intros H. apply in_map_iff in H as [p [Hp Hin]].
  apply List.filter_In in Hin as [Hin _]. exists p. auto.
Qed.

Lemma stored_insert (st : requests) (k tab : Z) (l : list Z) :
  stored (<[k := l]> st) tab = if k =? tab then l else stored st tab.
Proof.
  unfold stored. destruct (k =? tab) eqn:E.
  - apply Z.eqb_eq in E. subst. rewrite lookup_insert_eq. reflexivity.
  - apply Z.eqb_neq in E. rewrite lookup_insert_ne by exact E. reflexivity.
Qed.

Lemma stored_cleanup (st : requests) (now tab : Z) :
  stored (cleanup st now) tab = recent now (stored st tab).
Proof.
  unfold stored, cleanup. rewrite lookup_omap.
  destruct (st !! tab) as [l|]; simpl; [|reflexivity].
  destruct (recent now l); reflexivity.
Qed.

Lemma inv_mono (st : requests) (log : list (Z * Z)) (c c' : Z) :
  c <= c' -> inv st log c -> inv st log c'.
Proof.
  intros Hc [H1 H2]. split.
  - intros p Hp. specialize (H1 p Hp). lia.
  - intros tab t Ht. apply H2. lia.
Qed.

Lemma step_preserves (st : requests) (log : list (Z * Z)) (c : Z) (e : event) :
  c <= ev_time e -> inv st log c -> window_ok log ->
  inv (step (st, log) e).1 (step (st, log) e).2 (ev_time e) /\
  window_ok (step (st, log) e).2.
Proof.
  intros Hc Hinv Hw. pose proof (inv_mono _ _ _ _ Hc Hinv) as [H1 H2].
  destruct e as [k now|now]; cbn [ev_time] in Hc, H1, H2 |- *.
  - cbn [step]. unfold checkRateLimit.
    destruct (maxRequests <=? length (recent now (default [] (st !! k))))%nat eqn:Hr.
    + simpl. split; [split; assumption|exact Hw].
    + apply Nat.leb_gt in Hr. simpl. split; [split|].
      * intros p Hp. apply in_app_or in Hp as [Hp|Hp]; [auto|].
        destruct Hp as [<-|[]]. simpl. lia.
      * intros tab t Ht. rewrite stored_insert, log_of_snoc, cnt_app.
        destruct (k =? tab) eqn:E.
        -- apply Z.eqb_eq in E. subst tab. rewrite cnt_app, cnt_recent by exact Ht.
           fold (stored st k). rewrite H2 by exact Ht. reflexivity.
        -- rewrite (H2 tab t Ht). change (cnt [] t) with 0%nat. lia.
      * intros tab t. unfold window_count. rewrite log_of_snoc.
        destruct (k =? tab) eqn:E.
        -- apply Z.eqb_eq in E. subst tab.
           rewrite List.filter_app, length_app. simpl.
           destruct ((t <=? now) && (now <? t + windowMs)) eqn:Hin.
           ++ apply andb_true_iff in Hin as [Ht1 Ht2].
              apply Z.leb_le in Ht1. apply Z.ltb_lt in Ht2.
              rewrite window_all_below.
              ** rewrite <- H2 by lia. unfold stored.
                 rewrite <- (cnt_recent now t) by lia.
                 pose proof (cnt_le_length (recent now (default [] (st !! k))) t).
                 simpl. unfold maxRequests in *. lia.
              ** intros a Ha. apply log_of_in in Ha as [p [Hp <-]].
                 specialize (H1 p Hp). lia.
           ++ simpl. specialize (Hw k t). unfold window_count in Hw. lia.
        -- rewrite app_nil_r. apply Hw.
  - cbn [step fst snd]. split; [split|exact Hw].
    + exact H1.
    + intros tab t Ht. rewrite stored_cleanup, cnt_recent by exact Ht. apply H2, Ht.
Qed.

Lemma run_from (evs : list event) :
  forall (st : requests) (log : list (Z * Z)) (c : Z),
  nondecreasing_from c evs = true -> inv st log c -> window_ok log ->
  window_ok (fold_left step evs (st, log)).2.
Proof.
  induction evs as [|e rest IH]; intros st log c Hm Hinv Hw; cbn [fold_left]; [exact Hw|].
  cbn [nondecreasing_from] in Hm. apply andb_true_iff in Hm as [Hle Hm]. apply Z.leb_le in Hle.
  destruct (step_preserves st log c e Hle Hinv Hw) as [Hinv' Hw'].
  destruct (step (st, log) e) as [st' log'] eqn:Hs. simpl in Hinv', Hw'.
  eapply IH; eauto.
Qed.

Lemma inv_empty (c : Z) : inv ∅ [] c.
Proof.
  split; [intros p []|]. intros tab t _. unfold stored. rewrite lookup_empty. reflexivity.
Qed.

Lemma window_ok_empty : window_ok [].
Proof. intros tab t. unfold window_count, log_of. simpl. unfold maxRequests. lia. Qed.

(** C10: along any trace whose clock does not go backwards, every tab has
    at most 10 accepted requests in every 60-second window; a request that
    finds 10 recent requests recorded is rejected with the rate-limit
    error and the recorded history is left as it was; the
    [RateLimitManager] revision makes the same decision with the same
    history. *)
Theorem rate_limit_window (evs : list event) (Hmono : nondecreasing evs = true) :
  (forall tab t, (window_count (run evs).2 tab t <= 10)%nat) /\
  (forall (st : requests) (log : list (Z * Z)) (tab now : Z),
     (10 <= length (recent now (stored st tab)))%nat ->
     checkRateLimit st tab now = Throw rate_limit_message /\
     step (st, log) (Summarize tab now) = (st, log)) /\
  (forall (st : requests) (tab now : Z),
     manager_checkRateLimit st tab now =
     match checkRateLimit st tab now with
     | Ok st' => (true, st')
     | Throw _ => (false, st)
     end).
Proof.
  split; [|split].
  - destruct evs as [|e rest].
    + intros tab t. unfold run. simpl. apply window_ok_empty.
    + unfold run. cbn [fold_left].
      destruct (step_preserves ∅ [] (ev_time e) e ltac:(lia) (inv_empty _) window_ok_empty)
        as [Hinv Hw].
      destruct (step (∅, []) e) as [st' log'] eqn:Hs. simpl in Hinv, Hw.
      apply (run_from rest st' log' (ev_time e)); assumption.
  - intros st log tab now Hr. unfold stored in Hr.
    assert (Hc : checkRateLimit st tab now = Throw rate_limit_message).
    { unfold checkRateLimit. apply Nat.leb_le in Hr. unfold maxRequests. rewrite Hr. reflexivity. }
    split; [exact Hc|]. simpl. rewrite Hc. reflexivity.
  - intros st tab now. unfold manager_checkRateLimit, checkRateLimit, recent, windowMs, maxRequests.
    destruct (10 <=? _)%nat; reflexivity.
Qed.

Definition eleven_requests : list event :=
  map (fun t => Summarize 7 t) [0; 1; 2; 3; 4; 5; 6; 7; 8; 9; 10].

(** The eleventh request within the minute is not accepted; once the
    window has passed a new request is. *)
Example eleventh_rejected : length (run eleven_requests).2 = 10%nat.
Proof. vm_compute. reflexivity. Qed.

Example accepted_after_window :
  length (run (eleven_requests ++ [Tick 60000; Summarize 7 60000])).2 = 11%nat.
Proof. vm_compute. reflexivity. Qed.

Lemma rate_limit_window_witness :
  nondecreasing (eleven_requests ++ [Tick 60000; Summarize 7 60000]) = true /\
  (window_count (run (eleven_requests ++ [Tick 60000; Summarize 7 60000])).2 7 0 <= 10)%nat.
Proof.
  split; [reflexivity|].
  apply (proj1 (rate_limit_window (eleven_requests ++ [Tick 60000; Summarize 7 60000])
                  ltac:(reflexivity))).
Defined.

End RateLimitFacts.

Module LoaderFacts.
Import Loader.

Lemma iterate_count (p : page) (delta : Z) (cap : nat) (fuel : nat) :
  forall i y cs, (i <= (iterate p delta cap fuel i y cs).2 <= i + fuel)%nat.
Proof.
  induction fuel as [|f IH]; intros i y cs; simpl; [lia|].
  destruct (find p (S i)) as [b|e]; simpl; [|lia].
  destruct (length b <=? length cs)%nat; simpl; [lia|].
  destruct (cap <=? length b)%nat; simpl; [lia|].
  specialize (IH (S i) (rect_bottom p i + y + delta) b). lia.
Qed.

(** For every page, both revisions run at most their attempt bound and
    return at most their cap. *)
Lemma load_bounded (attempts : nat) (delta : Z) (cap : nat) (p : page) :
  (let '(_, _, n) := load_with_scrolling attempts delta cap p in n <= attempts)%nat /\
  match (load_with_scrolling attempts delta cap p).1.1 with
  | Ok cs => (length cs <= cap)%nat
  | Throw _ => True
  end.
Proof.
  unfold load_with_scrolling.
  destruct (negb (comments_container p)); simpl; [split; [lia|exact I]|].
  destruct (find p O) as [c0|e]; simpl; [|split; [lia|exact I]].
  pose proof (iterate_count p delta cap attempts O (scroll0 p) c0) as Hc.
  destruct (iterate p delta cap attempts O (scroll0 p) c0) as [[r y] n]; simpl in Hc.
  destruct r as [cs|e]; simpl; (split; [lia|]); [|exact I].
  rewrite length_firstn. lia.
Qed.

(** How a run over a growing page ends: it reaches the attempt bound or a
    recount of at least [cap]; no earlier recount reached [cap]. *)
Definition stops_first (p : page) (attempts cap : nat)
    (out : result (list (list Z)) * Z * nat) : Prop :=
  match out with
  | (Ok cs, _, n) =>
      (length cs <= cap)%nat /\ (n <= attempts)%nat /\
      (n = attempts \/ exists b, find p n = Ok b /\ (cap <= length b)%nat) /\
      (forall j, (0 < j < n)%nat -> exists b, find p j = Ok b /\ (length b < cap)%nat)
  | _ => False
  end.

Lemma iterate_growing (p : page) (delta : Z) (cap : nat) (Hg : growing p) (fuel : nat) :
  forall i y cs, find p i = Ok cs ->
  match iterate p delta cap fuel i y cs with
  | (Ok cs', _, n) =>
      find p n = Ok cs' /\
      (n = (i + fuel)%nat \/ (cap <= length cs')%nat) /\
      (forall j, (i < j < n)%nat -> exists b, find p j = Ok b /\ (length b < cap)%nat)
  | _ => False
  end.
Proof.
  induction fuel as [|f IH]; intros i y cs Hi; simpl.
  { split; [exact Hi|]. split; [left; lia|]. intros j Hj. lia. }
  destruct (Hg i) as (a & b & Ha & Hb & Hab).
  rewrite Hi in Ha. injection Ha as <-. rewrite Hb.
  destruct (length b <=? length cs)%nat eqn:E1; [apply Nat.leb_le in E1; lia|].
  destruct (cap <=? length b)%nat eqn:E2.
  - apply Nat.leb_le in E2. split; [exact Hb|]. split; [right; exact E2|].
    intros j Hj. lia.
  - apply Nat.leb_gt in E2.
    specialize (IH (S i) (rect_bottom p i + y + delta) b Hb).
    destruct (iterate p delta cap f (S i) (rect_bottom p i + y + delta) b)
      as [[[cs'|e] y'] n]; [|contradiction].
    destruct IH as (Hn & Hstop & Hbefore).
    split; [exact Hn|]. split; [destruct Hstop; [left; lia|right; assumption]|].
    intros j Hj. destruct (Nat.eq_dec j (S i)) as [->|Hne]; [exists b; auto|].
    apply Hbefore. lia.
Qed.

Lemma load_growing (attempts : nat) (delta : Z) (cap : nat) (p : page)
    (Hg : growing p) (Hc : comments_container p = true) :
  stops_first p attempts cap (load_with_scrolling attempts delta cap p).
Proof.
  unfold load_with_scrolling. rewrite Hc. simpl.
  destruct (Hg O) as (a0 & _ & Ha0 & _). rewrite Ha0.
  pose proof (iterate_growing p delta cap Hg attempts O (scroll0 p) a0 Ha0) as H.
  pose proof (iterate_count p delta cap attempts O (scroll0 p) a0) as Hn.
  destruct (iterate p delta cap attempts O (scroll0 p) a0) as [[[cs|e] y] n];
    [|contradiction].
  simpl in Hn. destruct H as (Hf & Hstop & Hbefore).
  split; [rewrite length_firstn; lia|]. split; [lia|]. split.
  - destruct Hstop as [Hs|Hs]; [left; lia|right; exists cs; auto].
  - intros j Hj. apply Hbefore. lia.
Qed.

(** C9: on a page that reports strictly more comments at every recount
    (the comments container present), both revisions return normally
    after at most their attempt bound (5 in [content.js], 3 in
    [CommentService]), with at most their cap (200, 150), and they stop at
    the first recount that reaches the cap or at the attempt bound,
    whichever comes first.  For every page, [load_bounded] gives the same
    two bounds. *)
Theorem loader_stops_at_cap_or_bound (p : page) (Hg : growing p)
    (Hc : comments_container p = true) :
  stops_first p 5 200 (loadAllCommentsWithScrolling p) /\
  stops_first p 3 150 (loadCommentsWithScrolling p).
Proof. split; apply load_growing; assumption. Qed.

(** A page whose [i]-th recount finds [i + 1] distinct comments. *)
Definition growing_page : page := {|
  comments_container := true;
  scroll0 := 0;
  rect_bottom := fun _ => 800;
  find := fun i => Ok (map (fun k => [Z.of_nat k]) (seq 0 (S i)));
  visible := fun _ => Ok [];
  load_more := fun _ => false;
  scroll_height := fun _ => 5000
|}.

Lemma growing_page_growing : growing growing_page.
Proof.
  intros i. do 2 eexists. split; [reflexivity|]. split; [reflexivity|].
  rewrite !length_map, !length_seq. lia.
Qed.

Lemma loader_stops_at_cap_or_bound_witness :
  growing growing_page /\ comments_container growing_page = true /\
  stops_first growing_page 5 200 (loadAllCommentsWithScrolling growing_page).
Proof.
  split; [exact growing_page_growing|]. split; [reflexivity|].
  apply (loader_stops_at_cap_or_bound growing_page growing_page_growing eq_refl).
Defined.

Example growing_page_runs :
  (loadAllCommentsWithScrolling growing_page).2 = 5%nat /\
  (loadCommentsWithScrolling growing_page).2 = 3%nat.
Proof. split; reflexivity. Qed.

(** A page whose recount in the first iteration throws. *)
Definition throwing_page : page := {|
  comments_container := true;
  scroll0 := 0;
  rect_bottom := fun _ => 800;
  find := fun i => match i with
                   | O => Ok [[104; 101; 108; 108; 111; 33]]
                   | S _ => Throw (js_str "boom")
                   end;
  visible := fun i => match i with O => Ok [] | S _ => Throw (js_str "boom") end;
  load_more := fun _ => false;
  scroll_height := fun _ => 5000
|}.

Lemma controller_restores (p : page) :
  (controller_loadCommentsWithScrolling p).2 = scroll0 p.
Proof.
  unfold controller_loadCommentsWithScrolling.
  destruct (controller_loop p 3 O (scroll0 p) []) as [[acc|e] y]; reflexivity.
Qed.

(** C1 (code defect): in [content.js] and [CommentService.js] the restore
    of the scroll position is the last statement of the [try] block, so
    when a step of an iteration throws, the error propagates with the page
    left scrolled (to 1300 and 1100 instead of 0).  The sibling controller
    of [src/unnamed/part_000] restores it in [finally], on every page. *)
Theorem loader_scroll_not_restored_on_throw :
  (exists e, loadAllCommentsWithScrolling throwing_page = (Throw e, 1300, 1%nat)) /\
  (exists e, loadCommentsWithScrolling throwing_page = (Throw e, 1100, 1%nat)) /\
  scroll0 throwing_page = 0 /\
  (forall p : page, (controller_loadCommentsWithScrolling p).2 = scroll0 p).
Proof.
  split; [eexists; reflexivity|]. split; [eexists; reflexivity|].
  split; [reflexivity|]. exact controller_restores.
Qed.

End LoaderFacts.

Module CoordinatorFacts.
Import Coordinator.

Lemma sanitize_timed_out :
  Sanitizer.sanitizeText (Sanitizer.JSString timed_out_message) = timed_out_message.
Proof. vm_compute. reflexivity. Qed.

Lemma race_never (timeout : Z) : race Never timeout = (Throw timed_out_message, timeout).
Proof. reflexivity. Qed.

Definition ui0 : ui :=
  {| quick_disabled := false; deep_disabled := false; boxes := []; has_section := true |}.

(** A [#comments] section holding one comment. *)
Definition one_comment_section : option Locator.section_dom :=
  Some {| Locator.content_text := Ok [[103; 114; 101; 97; 116; 32; 118; 105; 100; 101; 111]];
          Locator.fallbacks := [] |}.

(** C3 (refuted): the quick path of [content-refactored.js] races the
    request against [REQUEST_TIMEOUT] = 30 s, not 60 s: with a capability
    that never settles the timeout error is rendered after 30 s. *)
Lemma refactored_quick_times_out_at_30s :
  (handleSummarizeClick one_comment_section Never ui0).2 = 30000 /\
  (handleSummarizeClick one_comment_section Never ui0).2 <> 60000.
Proof. vm_compute. split; [reflexivity|discriminate]. Qed.

(** C3 (amended): with a capability that never settles, once comments
    were collected, [content.js]'s quick handler times out after 60 s,
    its deep handler after 90 s, and the quick handler of
    [content-refactored.js] after [REQUEST_TIMEOUT] = 30 s; each renders
    the rejection message "Request timed out" as an error box (when
    [#comments] exists) and re-enables the buttons it disabled. *)
Theorem handlers_render_timeout (qs : Locator.query_results) (pg : Loader.page)
    (sec : option Locator.section_dom) (u0 : ui)
    (Hq : Locator.findComments qs <> [])
    (Hd : exists c cs, (Loader.loadAllCommentsWithScrolling pg).1.1 = Ok (c :: cs))
    (Hr : exists cs pc, loadVisibleComments sec = Ok cs /\
                        validateAndProcessComments cs = Ok pc) :
  (let '(u, t) := summarizeCommentsHandler qs Never u0 in
   t = 60000 /\ quick_disabled u = false /\ deep_disabled u = deep_disabled u0 /\
   boxes u = (if has_section u0 then [ErrorBox timed_out_message] else [])) /\
  (let '(u, t) := deepSummarizeCommentsHandler pg Never u0 in
   t = 90000 /\ quick_disabled u = false /\ deep_disabled u = false /\
   boxes u = (if has_section u0 then [ErrorBox timed_out_message] else [])) /\
  (let '(u, t) := handleSummarizeClick sec Never u0 in
   t = REQUEST_TIMEOUT /\ quick_disabled u = false /\ deep_disabled u = false /\
   boxes u = (if has_section u0 then [ErrorBox timed_out_message] else [])).
Proof.
  destruct u0 as [q d b hs]. split; [|split].
  - unfold summarizeCommentsHandler, loadAllCommentsWithoutScrolling.
    destruct (Locator.findComments qs) as [|c cs]; [contradiction|].
    cbn [firstn]. rewrite race_never.
    unfold showSummary. rewrite sanitize_timed_out.
    destruct hs; cbn; repeat split; reflexivity.
  - destruct Hd as (c & cs & Hd).
    unfold deepSummarizeCommentsHandler. rewrite Hd. rewrite race_never.
    unfold showSummary. rewrite sanitize_timed_out.
    destruct hs; cbn; repeat split; reflexivity.
  - destruct Hr as (cs & pc & Hl & Hv).
    unfold handleSummarizeClick. rewrite Hl, Hv. rewrite race_never.
    destruct hs; cbn; repeat split; reflexivity.
Qed.

(** A page for the deep handler: one comment, and recounts that do not
    grow. *)
Definition one_comment_page : Loader.page := {|
  Loader.comments_container := true;
  Loader.scroll0 := 0;
  Loader.rect_bottom := fun _ => 800;
  Loader.find := fun _ => Ok [[103; 114; 101; 97; 116; 32; 118; 105; 100; 101; 111]];
  Loader.visible := fun _ => Ok [];
  Loader.load_more := fun _ => false;
  Loader.scroll_height := fun _ => 5000
|}.

Definition one_comment_dom : Locator.query_results :=
  [Ok [[103; 114; 101; 97; 116; 32; 118; 105; 100; 101; 111]]].

Lemma handlers_render_timeout_witness :
  (summarizeCommentsHandler one_comment_dom Never ui0).2 = 60000.
Proof.
  pose proof (handlers_render_timeout one_comment_dom one_comment_page
                one_comment_section ui0) as H.
  destruct H as [Hquick _].
  - vm_compute. discriminate.
  - do 2 eexists. vm_compute. reflexivity.
  - do 2 eexists. split; vm_compute; reflexivity.
  - destruct (summarizeCommentsHandler one_comment_dom Never ui0) as [u t].
    destruct Hquick as [Ht _]. exact Ht.
Defined.

End CoordinatorFacts.

Module ExpanderFacts.
Import Expander.

Definition clickable_count (bs : list bool) : nat := length (List.filter (fun b => b) bs).

Lemma batch_clicks_spec (c : list bool) :
  forall t i,
  t <= (batch_clicks t i c).2 /\
  (forall e, In e (batch_clicks t i c).1 -> t <= e.1 < (batch_clicks t i c).2) /\
  length (batch_clicks t i c).1 = clickable_count c.
Proof.
  induction c as [|b rest IH]; intros t i; simpl.
  { split; [lia|]. split; [intros e []|reflexivity]. }
  destruct b.
  - specialize (IH (t + 100) (S i)).
    destruct (batch_clicks (t + 100) (S i) rest) as [ev t'] eqn:E. simpl in *.
    destruct IH as (H1 & H2 & H3). split; [lia|]. split.
    + intros e [<-|He]; simpl; [lia|]. specialize (H2 e He). lia.
    + unfold clickable_count in *. simpl. lia.
  - specialize (IH t (S i)). destruct IH as (H1 & H2 & H3).
    split; [exact H1|]. split; [exact H2|]. exact H3.
Qed.

Lemma run_batches_spec (cs : list (list bool)) :
  forall t i,
  t <= (run_batches t i cs).2 /\
  (forall e, In e (run_batches t i cs).1 -> t <= e.1 < (run_batches t i cs).2) /\
  length (run_batches t i cs).1 = clickable_count (concat cs).
Proof.
  induction cs as [|c rest IH]; intros t i; simpl.
  { split; [lia|]. split; [intros e []|reflexivity]. }
  pose proof (batch_clicks_spec c t i) as (B1 & B2 & B3).
  destruct (batch_clicks t i c) as [ev t1] eqn:E. simpl in *.
  set (t2 := match rest with [] => t1 | _ => t1 + 200 end).
  assert (Ht2 : t1 <= t2) by (unfold t2; destruct rest; lia).
  specialize (IH t2 (i + length c)%nat).
  destruct (run_batches t2 (i + length c)%nat rest) as [ev2 t3] eqn:E2. simpl in *.
  destruct IH as (R1 & R2 & R3).
  split; [lia|]. split.
  - intros e He. apply in_app_or in He as [He|He].
    + specialize (B2 e He). lia.
    + specialize (R2 e He). lia.
  - rewrite length_app, B3, R3. unfold clickable_count.
    rewrite List.filter_app, length_app. reflexivity.
Qed.

Lemma chunks_concat (size : nat) (Hs : (0 < size)%nat) (fuel : nat) :
  forall l, (length l <= fuel)%nat -> concat (chunks_aux size fuel l) = l.
Proof.
  induction fuel as [|f IH]; intros l Hl; simpl.
  { destruct l; [reflexivity|simpl in Hl; lia]. }
  destruct l as [|x r]; [reflexivity|].
  simpl concat. rewrite IH.
  - apply firstn_skipn.
  - rewrite length_skipn. simpl in *. lia.
Qed.

Lemma expand_spec (t : Z) (bs : list bool) :
  (forall e, In e (expandReplyThreads t bs).1 -> t <= e.1 < (expandReplyThreads t bs).2) /\
  length (expandReplyThreads t bs).1 = clickable_count bs.
Proof.
  unfold expandReplyThreads.
  pose proof (run_batches_spec (chunks 3 bs) t 0) as (R1 & R2 & R3).
  destruct (run_batches t 0 (chunks 3 bs)) as [ev t1]. simpl in *.
  split.
  - intros e He. specialize (R2 e He). unfold REPLY_EXPANSION_DELAY. lia.
  - rewrite R3. unfold chunks. rewrite chunks_concat; [reflexivity|lia|lia].
Qed.

(** Two calls 50 ms apart, one clickable reply button. *)
Definition rapid_starts : list Z := [0; 50].

(** The selector list of [content.js] holds [button:contains(...)], so
    its first [querySelectorAll] throws, for any page. *)
Lemma content_query_throws (found : list bool) :
  querySelectorAll (join_with (js_str ", ") replyButtonPatterns) found = Throw SyntaxError.
Proof. unfold querySelectorAll. vm_compute. reflexivity. Qed.

Lemma content_expand_nothing (t : Z) (buttons more : list bool) :
  content_expandReplyThreads t buttons more = ([], t).
Proof. unfold content_expandReplyThreads. rewrite content_query_throws. reflexivity. Qed.




End ExpanderFacts.

Module NavigationFacts.
Import Navigation.

(** A watch page whose recorded URL is the current one, with a summary
    box, the buttons and one registered cleanup callback. *)
Definition watch_page : nav_state :=
  mk_nav "https://www.youtube.com/watch?v=abc"%string "/watch"%string
    "https://www.youtube.com/watch?v=abc"%string [0%nat] 1%nat true true []
    None.

Lemma refactored_fire_unchanged (now : Z) (s : nav_state) :
  href s = currentUrl s ->
  refactored_fire (signal now s) = set_timeout None s.
Proof.
  destruct s as [h p u r b c i ts o]; cbn [href currentUrl]; intros ->.
  unfold refactored_fire, signal, set_timeout; cbn.
  rewrite String.eqb_refl. reflexivity.
Qed.

(** C7: with [location.href] equal to the recorded URL, the content.js
    handler returns the state unchanged and the refactored handler's
    throttle callback leaves the recorded URL, the cleanup registry, the
    injected UI, the initialisation flag and the scheduled
    re-initialisations unchanged; the part_000 handler, which never
    compares URLs, tears down and schedules a re-initialisation on a
    watch page whose href is unchanged. *)
Theorem navigation_unchanged_href :
  (forall now s, href s = currentUrl s -> content_handleNavigation now s = s) /\
  (forall now s, href s = currentUrl s ->
     observable (refactored_fire (signal now s)) = observable s) /\
  (href watch_page = currentUrl watch_page /\
   observable (p0_fire (signal 0 watch_page)) <> observable watch_page).
Proof.
  split; [|split].
  - intros now s H. unfold content_handleNavigation.
    rewrite H, String.eqb_refl. reflexivity.
  - intros now s H. rewrite refactored_fire_unchanged by exact H.
    reflexivity.
  - split; [reflexivity|]. vm_compute. discriminate.
Qed.

Lemma navigation_unchanged_href_witness :
  content_handleNavigation 0 watch_page = watch_page /\
  observable (refactored_fire (signal 0 watch_page)) = observable watch_page.
Proof.
  split.
  - apply (proj1 navigation_unchanged_href 0 watch_page); reflexivity.
  - apply (proj1 (proj2 navigation_unchanged_href) 0 watch_page);
      reflexivity.
Defined.

End NavigationFacts.

Module RegistryFacts.
Import Registry.

Lemma mem_In x s : mem x s = true <-> In x s.
Proof.
  unfold mem. rewrite existsb_exists. split.
  - intros (y & Hy & E). apply Nat.eqb_eq in E. subst. exact Hy.
  - intros H. exists x. split; [exact H | apply Nat.eqb_refl].
Qed.

Lemma set_delete_head x s : ~ In x s -> set_delete x (x :: s) = s.
Proof.
  intros Hn. unfold set_delete. cbn [List.filter]. rewrite Nat.eqb_refl. cbn [negb].
  induction s as [|y s IH]; [reflexivity|].
  cbn [List.filter]. destruct (Nat.eqb y x) eqn:E.
  - apply Nat.eqb_eq in E. subst. exfalso. apply Hn. left. reflexivity.
  - cbn [negb]. f_equal. apply IH. intros H. apply Hn. right. exact H.
Qed.

Lemma addCleanup_with_inv max s fn :
  (1 <= max)%nat -> NoDup s -> (length s <= max)%nat ->
  NoDup (addCleanup_with max s fn) /\ (length (addCleanup_with max s fn) <= max)%nat /\
  In fn (addCleanup_with max s fn).
Proof.
  intros Hm Hnd Hlen. unfold addCleanup_with.
  assert (Hpre : exists s', (if (max <=? length s)%nat then
             match s with [] => s | oldest :: _ => set_delete oldest s end else s) = s' /\
             NoDup s' /\ (length s' < max)%nat).
  { destruct (max <=? length s)%nat eqn:E.
    - apply Nat.leb_le in E. destruct s as [|o rest]; [cbn in E; lia|].
      apply NoDup_cons in Hnd as [Hno Hnd]. rewrite list_elem_of_In in Hno. exists rest.
      rewrite set_delete_head by exact Hno. cbn [length] in *. repeat split; [exact Hnd | lia].
    - apply Nat.leb_gt in E. exists s. repeat split; [exact Hnd | lia]. }
  destruct Hpre as (s' & -> & Hnd' & Hlt).
  unfold set_add. destruct (mem fn s') eqn:Em.
  - apply mem_In in Em. repeat split; [exact Hnd' | lia | exact Em].
  - assert (~ In fn s') as Hn by (intros H; apply mem_In in H; congruence).
    repeat split.
    + apply NoDup_app. repeat split; [exact Hnd' | | apply NoDup_singleton].
      intros x Hx Hx'. apply list_elem_of_singleton in Hx'. subst.
      apply Hn. apply list_elem_of_In. exact Hx.
    + rewrite length_app. cbn [length]. lia.
    + apply in_or_app. right. left. reflexivity.
Qed.

Lemma register_all_inv max fns s :
  (1 <= max)%nat -> NoDup s -> (length s <= max)%nat ->
  NoDup (fold_left (addCleanup_with max) fns s) /\
  (length (fold_left (addCleanup_with max) fns s) <= max)%nat.
Proof.
  revert s. induction fns as [|f fns IH]; intros s Hm Hnd Hlen; cbn [fold_left].
  - split; assumption.
  - destruct (addCleanup_with_inv max s f Hm Hnd Hlen) as (H1 & H2 & _).
    apply IH; assumption.
Qed.

Lemma register_last max fns f :
  (1 <= max)%nat ->
  In f (fold_left (addCleanup_with max) (fns ++ [f]) []).
Proof.
  intros Hm. rewrite fold_left_app. cbn [fold_left].
  destruct (register_all_inv max fns [] Hm NoDup_nil_2 ltac:(cbn; lia)) as [H1 H2].
  apply (addCleanup_with_inv max _ f Hm H1 H2).
Qed.

(** [content.js] [addCleanup] and [UIService.addCleanup]: whatever
    sequence of functions is registered on an empty registry, the
    registry holds each function at most once and never more than 100
    (resp. 50) of them, and the function registered last is always kept. *)
Theorem cleanup_registry_bounded (fns : list nat) (f : nat) :
  NoDup (register_all addCleanup fns) /\
  (length (register_all addCleanup fns) <= 100)%nat /\
  In f (register_all addCleanup (fns ++ [f])) /\
  NoDup (register_all UIService_addCleanup fns) /\
  (length (register_all UIService_addCleanup fns) <= 50)%nat /\
  In f (register_all UIService_addCleanup (fns ++ [f])).
Proof.
  unfold register_all, addCleanup, UIService_addCleanup.
  destruct (register_all_inv maxCleanupItems fns [] ltac:(cbv; lia) NoDup_nil_2
              ltac:(cbn; lia)) as [A1 A2].
  destruct (register_all_inv MAX_CLEANUP_ITEMS fns [] ltac:(cbv; lia) NoDup_nil_2
              ltac:(cbn; lia)) as [B1 B2].
  repeat split; try assumption.
  - apply register_last. cbv; lia.
  - apply register_last. cbv; lia.
Qed.

End RegistryFacts.

Module WaitingFacts.
Import Waiting.

Lemma poll_none found d k n t :
  (forall i, (k <= i < k + n)%nat -> found i = false) ->
  poll found d k n t = (None, t + d * Z.of_nat n).
Proof.
  revert k t. induction n as [|n IH]; intros k t H; cbn [poll].
  - f_equal. lia.
  - rewrite (H k) by lia. rewrite IH by (intros i Hi; apply H; lia).
    f_equal. lia.
Qed.

Lemma poll_first found d k n t j :
  (j < n)%nat -> found (k + j)%nat = true ->
  (forall i, (k <= i < k + j)%nat -> found i = false) ->
  poll found d k n t = (Some (k + j)%nat, t + d * Z.of_nat j).
Proof.
  revert k n t. induction j as [|j IH]; intros k n t Hj Hf H.
  - destruct n as [|n]; [lia|]. cbn [poll]. rewrite Nat.add_0_r in Hf |- *.
    rewrite Hf. f_equal. lia.
  - destruct n as [|n]; [lia|]. cbn [poll]. rewrite (H k) by lia.
    rewrite (IH (S k) n (t + d)).
    + f_equal; [f_equal; lia | lia].
    + lia.
    + rewrite <- Hf. f_equal. lia.
    + intros i Hi. apply H. lia.
Qed.

(** [content.js] [waitForCommentsSection]: with looks every 500 ms, the
    promise resolves at the first look [k] (of at most 20) that finds a
    visible [#comments], [500 * (k - 1)] ms after the call; when none of
    the 20 looks succeeds it rejects with "Comments section not found
    within timeout" at 10000 ms. *)
Theorem waitForCommentsSection_timing :
  (forall visible : nat -> bool,
     (forall k, (1 <= k <= 20)%nat -> visible k = false) ->
     waitForCommentsSection visible = (Throw not_found_message, 10000)) /\
  (forall (visible : nat -> bool) (k : nat),
     (1 <= k <= 20)%nat -> visible k = true ->
     (forall i, (1 <= i < k)%nat -> visible i = false) ->
     waitForCommentsSection visible = (Ok k, 500 * (Z.of_nat k - 1))).
Proof.
  split.
  - intros visible H. unfold waitForCommentsSection.
    change maxAttempts with 20%nat.
    rewrite poll_none by (intros i Hi; apply H; lia). reflexivity.
  - intros visible k Hk Hv H. unfold waitForCommentsSection.
    change maxAttempts with 20%nat.
    rewrite (poll_first visible retryDelay 1 20 0 (k - 1)).
    + replace (1 + (k - 1))%nat with k by lia. unfold retryDelay. f_equal. f_equal. lia.
    + lia.
    + replace (1 + (k - 1))%nat with k by lia. exact Hv.
    + intros i Hi. apply H. lia.
Qed.

Lemma waitForCommentsSection_timing_witness :
  waitForCommentsSection (fun _ => false) = (Throw not_found_message, 10000) /\
  waitForCommentsSection (fun k => (3 <=? k)%nat) = (Ok 3%nat, 1000).
Proof.
  split.
  - apply (proj1 waitForCommentsSection_timing). intros k Hk. reflexivity.
  - apply (proj2 waitForCommentsSection_timing (fun k => (3 <=? k)%nat) 3%nat).
    + lia.
    + reflexivity.
    + intros i Hi. apply Nat.leb_gt. lia.
Defined.

(** part_000 [waitForCommentsSection]: the first of at most ten looks
    that finds [#comments] resolves with it [500 * (k - 1)] ms after the
    call; after ten misses it resolves with [null] at 5000 ms, it never
    rejects. *)
Theorem p0_waitForCommentsSection_timing :
  (forall present : nat -> bool,
     (forall k, (1 <= k <= 10)%nat -> present k = false) ->
     p0_waitForCommentsSection present = (None, 5000)) /\
  (forall (present : nat -> bool) (k : nat),
     (1 <= k <= 10)%nat -> present k = true ->
     (forall i, (1 <= i < k)%nat -> present i = false) ->
     p0_waitForCommentsSection present = (Some k, 500 * (Z.of_nat k - 1))).
Proof.
  split.
  - intros present H. unfold p0_waitForCommentsSection.
    rewrite poll_none by (intros i Hi; apply H; lia). reflexivity.
  - intros present k Hk Hv H. unfold p0_waitForCommentsSection.
    rewrite (poll_first present 500 1 10 0 (k - 1)).
    + replace (1 + (k - 1))%nat with k by lia. f_equal. lia.
    + lia.
    + replace (1 + (k - 1))%nat with k by lia. exact Hv.
    + intros i Hi. apply H. lia.
Qed.

Lemma p0_waitForCommentsSection_timing_witness :
  p0_waitForCommentsSection (fun _ => false) = (None, 5000) /\
  p0_waitForCommentsSection (fun k => (10 <=? k)%nat) = (Some 10%nat, 4500).
Proof.
  split.
  - apply (proj1 p0_waitForCommentsSection_timing). intros k Hk. reflexivity.
  - apply (proj2 p0_waitForCommentsSection_timing (fun k => (10 <=? k)%nat) 10%nat).
    + lia.
    + reflexivity.
    + intros i Hi. apply Nat.leb_gt. lia.
Defined.

End WaitingFacts.

Module InitFacts.
Import Init.

(** [initializeWithRetry] (content-refactored.js and part_000): the loop
    calls [initialize] at most three times and waits at most 2000 ms; as
    [ContentScriptController.initialize] catches every error itself, the
    loop in fact calls it exactly once and never waits, whatever the
    outcome of [waitForCommentsSection]. *)
Theorem initializeWithRetry_single_call :
  (forall init : nat -> result bool,
     ((initializeWithRetry init).1 <= 3)%nat /\ (initializeWithRetry init).2 <= 2000) /\
  (forall (isInitialized : bool) (found : nat -> result (option nat)),
     initializeWithRetry (fun i => initialize isInitialized (found i)) = (1%nat, 0)).
Proof.
  split.
  - intros init. unfold initializeWithRetry. cbn [retry_loop].
    destruct (init 0%nat); [cbn; lia|].
    cbn [Nat.ltb Nat.leb]. destruct (init 1%nat); [cbn; lia|].
    destruct (init 2%nat); cbn; lia.
  - intros isInitialized found. unfold initializeWithRetry. cbn [retry_loop].
    unfold initialize. destruct isInitialized; [reflexivity|].
    destruct (found 0%nat) as [[x|]|e]; reflexivity.
Qed.

End InitFacts.

Module RetryFacts.
Import Retry.

Lemma pow2_step (a : nat) : (1 <= a)%nat ->
  2 ^ (Z.of_nat (S a) - 1) = 2 * 2 ^ (Z.of_nat a - 1).
Proof.
  intros H. replace (Z.of_nat (S a) - 1) with (Z.succ (Z.of_nat a - 1)) by lia.
  apply Z.pow_succ_r. lia.
Qed.

Lemma retry_from_ok {A} (fn : nat -> result A) M b j :
  forall a r t v, (1 <= a)%nat -> (a + j <= M)%nat -> (j < r)%nat ->
  fn (a + j)%nat = Ok v -> (forall i, (a <= i < a + j)%nat -> is_throw (fn i) = true) ->
  retry_from fn M b a r t =
  (Resolved v, S j, t + b * (2 ^ (Z.of_nat (a + j) - 1) - 2 ^ (Z.of_nat a - 1))).
Proof.
  induction j as [|j IH]; intros a r t v Ha HM Hr Hv Hth.
  - destruct r as [|r]; [lia|]. cbn [retry_from]. rewrite Nat.add_0_r in Hv |- *.
    rewrite Hv. rewrite Z.sub_diag, Z.mul_0_r, Z.add_0_r. reflexivity.
  - destruct r as [|r]; [lia|]. cbn [retry_from].
    specialize (Hth a ltac:(lia)) as Hta. destruct (fn a) as [x|e]; [discriminate|].
    replace (Nat.eqb a M) with false by (symmetry; apply Nat.eqb_neq; lia).
    rewrite (IH (S a) r (t + b * 2 ^ (Z.of_nat a - 1)) v); try lia.
    + f_equal. rewrite pow2_step by lia.
      replace (Z.of_nat (S a + j)) with (Z.of_nat (a + S j)) by lia. ring.
    + rewrite <- Hv. f_equal. lia.
    + intros i Hi. apply Hth. lia.
Qed.

Lemma retry_from_throw {A} (fn : nat -> result A) M b j :
  forall a r t e, (1 <= a)%nat -> (a + j = M)%nat -> (j < r)%nat ->
  fn M = Throw e -> (forall i, (a <= i < M)%nat -> is_throw (fn i) = true) ->
  retry_from fn M b a r t =
  (Rejected e, S j, t + b * (2 ^ (Z.of_nat M - 1) - 2 ^ (Z.of_nat a - 1))).
Proof.
  induction j as [|j IH]; intros a r t e Ha HM Hr He Hth.
  - destruct r as [|r]; [lia|]. cbn [retry_from].
    rewrite Nat.add_0_r in HM. subst M. rewrite He, Nat.eqb_refl.
    rewrite Z.sub_diag, Z.mul_0_r, Z.add_0_r. reflexivity.
  - destruct r as [|r]; [lia|]. cbn [retry_from].
    specialize (Hth a ltac:(lia)) as Hta. destruct (fn a) as [x|e']; [discriminate|].
    replace (Nat.eqb a M) with false by (symmetry; apply Nat.eqb_neq; lia).
    rewrite (IH (S a) r (t + b * 2 ^ (Z.of_nat a - 1)) e); try lia.
    + f_equal. rewrite pow2_step by lia. ring.
    + exact He.
    + intros i Hi. apply Hth. lia.
Qed.


(** Three calls: two rejections, then a success. *)
Definition flaky (i : nat) : result Z :=
  if (i <? 3)%nat then Throw (js_str "busy") else Ok 42.


End RetryFacts.

Module ValidationFacts.
Import Sanitizer Validation SanitizerFacts.

Lemma Forall_filter_keep (f : js_value -> bool) (l : list js_value) :
  Forall (fun v => f v = true) (List.filter f l).
Proof.
  induction l as [|x l IH]; cbn [List.filter]; [constructor|].
  destruct (f x) eqn:E; [constructor; assumption | exact IH].
Qed.

Lemma filter_nil_iff (f : js_value -> bool) (l : list js_value) :
  List.filter f l = [] <-> Forall (fun v => f v = false) l.
Proof.
  induction l as [|x l IH]; cbn [List.filter].
  - split; [constructor | reflexivity].
  - destruct (f x) eqn:E.
    + split; [discriminate|]. intros H. inversion H; congruence.
    + rewrite IH. split; [intros H; constructor; assumption|].
      intros H. inversion H. assumption.
Qed.

Lemma length_filter_le {A} (f : A -> bool) (l : list A) :
  (length (List.filter f l) <= length l)%nat.
Proof.
  induction l as [|x l IH]; cbn [List.filter length]; [lia|].
  destruct (f x); cbn [length]; lia.
Qed.

(** part_000 [validateAndProcessComments]: on any non-empty array it
    never throws; it returns at most 200 strings, each longer than 5 and
    shorter than 1000 code units: exactly the entries among the first
    200 that pass the filter, in order; the result is empty, without any
    error, exactly when none of those first 200 entries passes it. *)
Theorem p0_validate_never_throws (cs : list js_value) (Hne : cs <> []) :
  exists r, p0_validateAndProcessComments (Some cs) = Ok r /\
    r = List.filter p0_keep (firstn 200 cs) /\
    (length r <= 200)%nat /\
    Forall (fun v => exists s, v = JSString s /\ (5 < length s < 1000)%nat) r /\
    (r = [] <-> Forall (fun v => p0_keep v = false) (firstn 200 cs)).
Proof.
  assert (Hcs : (if (200 <? length cs)%nat then firstn 200 cs else cs) = firstn 200 cs).
  { destruct (200 <? length cs)%nat eqn:E; [reflexivity|].
    apply Nat.ltb_ge in E. symmetry. apply firstn_all2. exact E. }
  exists (List.filter p0_keep (firstn 200 cs)). split.
  - unfold p0_validateAndProcessComments. destruct cs as [|c cs']; [congruence|].
    rewrite Hcs. reflexivity.
  - split; [reflexivity|]. split; [|split].
    + pose proof (length_filter_le p0_keep (firstn 200 cs)).
      rewrite length_firstn in H. lia.
    + eapply Forall_impl; [apply Forall_filter_keep|]. intros v Hv.
      destruct v as [s| | | | |]; try discriminate. exists s. split; [reflexivity|].
      unfold p0_keep in Hv. apply andb_true_iff in Hv as [H1 H2].
      apply Nat.ltb_lt in H1, H2. lia.
    + apply filter_nil_iff.
Qed.

Lemma p0_validate_never_throws_witness :
  p0_validateAndProcessComments (Some [JSString (js_str "ok"); JSNumber 7]) = Ok [].
Proof.
  destruct (p0_validate_never_throws [JSString (js_str "ok"); JSNumber 7]
              ltac:(discriminate)) as (r & E & _ & _ & _ & Hr).
  rewrite E. f_equal. apply Hr. repeat constructor.
Defined.

Lemma In_firstn {A} (x : A) n (l : list A) : In x (firstn n l) -> In x l.
Proof.
  intros H. rewrite <- (firstn_skipn n l). apply in_or_app. left. exact H.
Qed.

(** [CommentService.validateAndProcessComments]: when it returns, the
    input had at most 200 entries and the result holds between 1 and 200
    comments, each at most 1000 code units long, free of control
    characters and not starting with whitespace. *)
Theorem service_validate_bounds (comments pc : list (list Z))
    (H : Coordinator.validateAndProcessComments comments = Ok pc) :
  (length comments <= 200)%nat /\ (1 <= length pc <= 200)%nat /\
  Forall (fun t => (length t <= 1000)%nat /\ no_controls t /\ starts_nonws t) pc.
Proof.
  unfold Coordinator.validateAndProcessComments in H.
  destruct (length comments <? 1)%nat; [discriminate|].
  destruct (Locator.MAX_COMMENTS <? length comments)%nat eqn:Emax; [discriminate|].
  apply Nat.ltb_ge in Emax. unfold Locator.MAX_COMMENTS in *.
  set (proc := firstn 200 _) in H.
  assert (Hall : Forall (fun t => (length t <= 1000)%nat /\ no_controls t /\ starts_nonws t) proc).
  { apply Forall_forall. intros t Ht. rewrite list_elem_of_In in Ht. unfold proc in Ht.
    apply In_firstn, in_map_iff in Ht as (cm & <- & _).
    split; [apply sanitize_length|]. split; [apply sanitize_no_controls | apply sanitize_starts]. }
  assert (Hlen : (length proc <= 200)%nat) by (unfold proc; rewrite length_firstn; lia).
  destruct proc as [|t ts] eqn:Ep; [discriminate|]. injection H as <-.
  split; [exact Emax|]. split; [cbn [length] in *; lia | exact Hall].
Qed.

Lemma service_validate_bounds_witness :
  Coordinator.validateAndProcessComments [js_str "  nice video  "] = Ok [js_str "nice video"] /\
  (1 <= length [js_str "nice video"] <= 200)%nat.
Proof.
  split; [vm_compute; reflexivity|].
  apply (proj1 (proj2 (service_validate_bounds [js_str "  nice video  "] [js_str "nice video"]
                         ltac:(vm_compute; reflexivity)))).
Defined.

Lemma scan_elems (acc : nat -> bool) (maxc : nat) (els : list Locator.node) :
  forall seen comments,
  Forall (fun t => acc (length t) = true /\ exists e, t = sanitize (JSString e) DEFAULT_MAX_LENGTH)
    comments ->
  Forall (fun t => acc (length t) = true /\ exists e, t = sanitize (JSString e) DEFAULT_MAX_LENGTH)
    (Locator.scan acc maxc els seen comments).2.
Proof.
  induction els as [|e rest IH]; intros seen comments Hc; cbn [Locator.scan]; [exact Hc|].
  destruct e as [|c r]; [apply IH; exact Hc|].
  destruct (acc (length (sanitize (JSString (c :: r)) DEFAULT_MAX_LENGTH)) &&
            negb (Locator.mem (sanitize (JSString (c :: r)) DEFAULT_MAX_LENGTH) seen)) eqn:E.
  - apply andb_true_iff in E as [E _].
    assert (Hc' : Forall (fun t => acc (length t) = true /\
                     exists e, t = sanitize (JSString e) DEFAULT_MAX_LENGTH)
                  (comments ++ [sanitize (JSString (c :: r)) DEFAULT_MAX_LENGTH])).
    { apply Forall_app. split; [exact Hc|]. constructor; [|constructor].
      split; [exact E | exists (c :: r); reflexivity]. }
    destruct (maxc <=? _)%nat; [exact Hc' | apply IH; exact Hc'].
  - apply IH. exact Hc.
Qed.

(** [CommentService.findCommentsWithoutExpanding]: whatever the cache and
    the page hold, a returned list has no duplicate, at most
    [QUICK_CHECK_LIMIT] = 50 entries, and each entry is a sanitized text
    of 5 to 2000 code units, without control characters and not starting
    with whitespace. *)
Theorem findCommentsWithoutExpanding_bounded (c : dom_cache) (now : Z) (dom : option section)
    (l : list (list Z)) (H : (findCommentsWithoutExpanding c now dom).2 = Ok l) :
  NoDup l /\ (length l <= 50)%nat /\
  Forall (fun t => (5 <= length t <= 2000)%nat /\ no_controls t /\ starts_nonws t) l.
Proof.
  unfold findCommentsWithoutExpanding in H.
  destruct (getCachedCommentsSection c now dom) as [c' [[els|e]|]]; cbn [snd] in H;
    [|discriminate|injection H as <-; split; [constructor|split; [cbn; lia|constructor]]].
  injection H as <-.
  destruct (LocatorFacts.scan_inv Locator.service_accept QUICK_CHECK_LIMIT els [] []
              ltac:(tauto) NoDup_nil_2 ltac:(cbv; lia)) as (_ & Hnd & Hlen).
  split; [exact Hnd|]. split; [exact Hlen|].
  eapply Forall_impl; [apply scan_elems; constructor|].
  intros t (Ha & e & ->). unfold Locator.service_accept, Locator.MIN_COMMENT_LENGTH in Ha.
  apply Nat.leb_le in Ha.
  split; [split; [exact Ha | apply sanitize_length]|].
  split; [apply sanitize_no_controls | apply sanitize_starts].
Qed.

Lemma findCommentsWithoutExpanding_bounded_witness :
  (findCommentsWithoutExpanding {| commentsSection := None; lastCacheTime := 0 |} 0
     (Some (Ok [js_str "great video"; js_str "great video"; js_str "ok"]))).2
  = Ok [js_str "great video"] /\ (length [js_str "great video"] <= 50)%nat.
Proof.
  split; [vm_compute; reflexivity|].
  apply (proj1 (proj2 (findCommentsWithoutExpanding_bounded
    {| commentsSection := None; lastCacheTime := 0 |} 0
    (Some (Ok [js_str "great video"; js_str "great video"; js_str "ok"]))
    [js_str "great video"] ltac:(vm_compute; reflexivity)))).
Defined.

End ValidationFacts.

Module RateLimitCompose.
Import RateLimit.

Lemma recent_recent (t now : Z) (l : list Z) :
  t <= now -> recent now (recent t l) = recent now l.
Proof.
  intros Ht. unfold recent. induction l as [|x l IH]; [reflexivity|].
  cbn [List.filter]. destruct (t - x <? windowMs) eqn:E1.
  - cbn [List.filter]. rewrite IH. reflexivity.
  - destruct (now - x <? windowMs) eqn:E2; [|exact IH].
    apply Z.ltb_ge in E1. apply Z.ltb_lt in E2. lia.
Qed.

Lemma lookup_cleanup_recent (st : requests) (t now tab : Z) :
  t <= now ->
  recent now (default [] (cleanup st t !! tab)) = recent now (default [] (st !! tab)).
Proof.
  intros Ht. unfold cleanup. rewrite lookup_omap.
  destruct (st !! tab) as [l|]; [|reflexivity].
  change (default [] (Some l)) with l.
  rewrite <- (recent_recent t now l Ht).
  unfold mbind, option_bind. destruct (recent t l); reflexivity.
Qed.

(** What a rate-limit check tells the caller about [tab]: the decision,
    and the stored timestamps of [tab] after an accepted request. *)
Definition tab_view (tab : Z) (r : result requests) : result (option (list Z)) :=
  match r with Ok st => Ok (st !! tab) | Throw e => Throw e end.

Definition manager_view (tab : Z) (r : bool * requests) : bool * option (list Z) :=
  (r.1, if r.1 then r.2 !! tab else None).

(** [background.js] [checkRateLimit] and [RateLimitManager]: the periodic
    cleanup never changes a later decision: a check at [now] after a
    cleanup at [t <= now] accepts or rejects exactly as without the
    cleanup and stores the same timestamps for the tab; and a check for
    one tab never changes the entry of another tab. *)
Theorem rate_limit_cleanup_and_isolation :
  (forall st tab t now, t <= now ->
     tab_view tab (checkRateLimit (cleanup st t) tab now) =
     tab_view tab (checkRateLimit st tab now) /\
     manager_view tab (manager_checkRateLimit (cleanup st t) tab now) =
     manager_view tab (manager_checkRateLimit st tab now)) /\
  (forall st st' a b now, a <> b ->
     checkRateLimit st a now = Ok st' -> st' !! b = st !! b) /\
  (forall st a b now, a <> b -> (manager_checkRateLimit st a now).2 !! b = st !! b).
Proof.
  split; [|split].
  - intros st tab t now Ht. pose proof (lookup_cleanup_recent st t now tab Ht) as E.
    split.
    + unfold checkRateLimit. rewrite E.
      destruct (maxRequests <=? length (recent now (default [] (st !! tab))))%nat;
        [reflexivity|]. cbn. rewrite !lookup_insert_eq. reflexivity.
    + unfold manager_checkRateLimit.
      change (List.filter (fun time => now - time <? 60000)) with (recent now). rewrite E.
      destruct (10 <=? length (recent now (default [] (st !! tab))))%nat;
        [reflexivity|]. unfold manager_view. cbn. rewrite !lookup_insert_eq. reflexivity.
  - intros st st' a b now Hab H. unfold checkRateLimit in H.
    destruct (maxRequests <=? _)%nat; [discriminate|]. injection H as <-.
    apply lookup_insert_ne. exact Hab.
  - intros st a b now Hab. unfold manager_checkRateLimit.
    destruct (10 <=? _)%nat; [reflexivity|]. cbn. apply lookup_insert_ne. exact Hab.
Qed.

Lemma rate_limit_cleanup_and_isolation_witness :
  tab_view 1 (checkRateLimit (cleanup {[1 := [0]]} 70000) 1 70000) =
  tab_view 1 (checkRateLimit {[1 := [0]]} 1 70000) /\
  (manager_checkRateLimit {[1 := [0]]} 2 5).2 !! 1 = Some [0].
Proof.
  split.
  - apply (proj1 (proj1 rate_limit_cleanup_and_isolation {[1 := [0]]} 1 70000 70000
                    ltac:(lia))).
  - rewrite (proj2 (proj2 rate_limit_cleanup_and_isolation) {[1 := [0]]} 2 1 5
               ltac:(lia)).
    reflexivity.
Defined.

End RateLimitCompose.

Module BackgroundFacts.
Import Sanitizer Background SanitizerFacts.

Lemma trim_length (s : list Z) : (length (trim s) <= length s)%nat.
Proof.
  unfold trim. etransitivity; [apply trim_end_length|].
  destruct (trim_start_suffix s) as [p Hp]. rewrite Hp at 2. rewrite length_app. lia.
Qed.

Lemma process_bounds (v : js_value) :
  (length (process v) <= maxCommentLength)%nat /\ no_controls (process v).
Proof.
  destruct v; cbn [process]; try (split; [cbn [length]; unfold maxCommentLength; lia | constructor]).
  split.
  - assert (H1 := trim_length (substring0 l maxCommentLength)).
    assert (H2 : (length (substring0 l maxCommentLength) <= maxCommentLength)%nat)
      by (unfold substring0; rewrite length_firstn; lia).
    unfold strip_nul, strip_controls.
    eapply Nat.le_trans; [apply ValidationFacts.length_filter_le|].
    eapply Nat.le_trans; [apply ValidationFacts.length_filter_le|]. lia.
  - rewrite strip_nul_id by apply strip_controls_no_controls.
    apply strip_controls_no_controls.
Qed.

Lemma validateComments_ok (comments : option (list js_value)) (r : list (list Z)) :
  validateComments comments = Ok r ->
  exists l, comments = Some l /\
    (1 <= length r)%nat /\ length r = length (List.filter keep l) /\ (length l <= 100)%nat /\
    Forall (fun s => (length s <= 1000)%nat /\ no_controls s) r /\
    Z.of_nat (length (concat r)) <= 50000.
Proof.
  intros H. destruct comments as [l|]; [|discriminate]. exists l. split; [reflexivity|].
  unfold validateComments in H.
  destruct (length l =? 0)%nat eqn:E0; [discriminate|].
  destruct (maxComments <? length l)%nat eqn:E1; [discriminate|].
  apply Nat.ltb_ge in E1. unfold maxComments in E1.
  pose proof (ValidationFacts.length_filter_le keep l) as Hfl.
  rewrite (firstn_all2 (n := maxComments)) in H
    by (rewrite length_map; unfold maxComments; lia).
  destruct (length (map process (List.filter keep l)) =? 0)%nat eqn:E2; [discriminate|].
  destruct (maxTotalLength <? Z.of_nat (length (concat (map process (List.filter keep l)))))
    eqn:E3; [discriminate|].
  injection H as <-.
  apply Nat.eqb_neq in E2. apply Z.ltb_ge in E3. unfold maxTotalLength in E3.
  rewrite length_map in *.
  split; [lia|]. split; [reflexivity|]. split; [lia|]. split; [|exact E3].
  apply List.Forall_forall. intros s Hs. apply in_map_iff in Hs as [v [<- _]].
  apply process_bounds.
Qed.

(** Every comment list [validateComments] accepts has 1 to 100 entries,
    one per input entry that passes the filter (the final [slice] never
    drops one), each at most 1000 code units long and free of control
    characters, with at most 50000 code units in total. *)
Theorem validateComments_bounds (comments : option (list js_value)) (r : list (list Z))
    (H : validateComments comments = Ok r) :
  exists l, comments = Some l /\
    (1 <= length r)%nat /\ length r = length (List.filter keep l) /\ (length l <= 100)%nat /\
    Forall (fun s => (length s <= 1000)%nat /\ no_controls s) r /\
    Z.of_nat (length (concat r)) <= 50000.
Proof. exact (validateComments_ok comments r H). Qed.

Lemma validateComments_bounds_witness :
  validateComments (Some [JSString (js_str "  hello world "); JSNumber 3])
    = Ok [js_str "hello world"] /\
  (1 <= length [js_str "hello world"])%nat.
Proof.
  split; [vm_compute; reflexivity|].
  destruct (validateComments_bounds (Some [JSString (js_str "  hello world "); JSNumber 3])
              [js_str "hello world"] ltac:(vm_compute; reflexivity)) as (l & _ & Hr & _).
  exact Hr.
Defined.

Lemma no_controls_forallb (s : list Z) :
  forallb (fun c => negb (is_control c)) s = true -> no_controls s.
Proof.
  unfold no_controls. induction s as [|c r IH]; simpl; [constructor|].
  intros H. apply andb_prop in H as [Hc Hr]. constructor; [|auto].
  destruct (is_control c); [discriminate|reflexivity].
Qed.

Lemma default_prompt_facts :
  DEFAULT_SYSTEM_PROMPT <> [] /\ (length DEFAULT_SYSTEM_PROMPT <= 300)%nat /\
  no_controls DEFAULT_SYSTEM_PROMPT.
Proof.
  split; [vm_compute; discriminate|]. split; [vm_compute; lia|].
  apply no_controls_forallb. vm_compute. reflexivity.
Qed.

Lemma promptToUse_default :
  match DEFAULT_SYSTEM_PROMPT with [] => DEFAULT_SYSTEM_PROMPT | p => p end
  = DEFAULT_SYSTEM_PROMPT.
Proof. vm_compute. reflexivity. Qed.

(** What the listener uses: the default, or the cleaned stored prompt,
    which is never longer than the trimmed stored prompt. *)
Lemma promptToUse_cases (systemPrompt : js_value) :
  promptToUse systemPrompt = DEFAULT_SYSTEM_PROMPT \/
  exists s, systemPrompt = JSString s /\
    promptToUse systemPrompt = substring0 (strip_controls (trim s)) (Z.to_nat maxPromptLength) /\
    promptToUse systemPrompt <> [] /\
    (length (promptToUse systemPrompt) <= length (trim s))%nat /\
    (1 <= length (trim s))%nat /\ Z.of_nat (length (trim s)) <= maxPromptLength.
Proof.
  unfold promptToUse, validateSystemPrompt.
  destruct systemPrompt as [s| | | | |]; try (left; apply promptToUse_default).
  destruct ((length (trim s) =? 0)%nat || (maxPromptLength <? Z.of_nat (length (trim s))))
    eqn:E; [left; apply promptToUse_default|].
  apply orb_false_iff in E as [E1 E2].
  apply Nat.eqb_neq in E1. apply Z.ltb_ge in E2.
  destruct (substring0 (strip_controls (trim s)) (Z.to_nat maxPromptLength)) as [|c r] eqn:Ep;
    [left; apply promptToUse_default|].
  right. exists s. split; [reflexivity|]. split; [rewrite Ep; reflexivity|]. split; [discriminate|].
  split; [|lia].
  rewrite <- Ep. unfold substring0, strip_controls. rewrite length_firstn.
  pose proof (ValidationFacts.length_filter_le (fun c => negb (is_control c)) (trim s)). lia.
Qed.

(** The system prompt the listener uses is never empty, at most 100000
    code units long and free of control characters; a non-string, blank or
    over-long stored prompt gives [DEFAULT_SYSTEM_PROMPT]. *)
Theorem promptToUse_bounds (systemPrompt : js_value) :
  promptToUse systemPrompt <> [] /\
  Z.of_nat (length (promptToUse systemPrompt)) <= maxPromptLength /\
  no_controls (promptToUse systemPrompt) /\
  (match systemPrompt with
   | JSString s => length (trim s) = 0%nat \/ maxPromptLength < Z.of_nat (length (trim s))
   | _ => True
   end -> promptToUse systemPrompt = DEFAULT_SYSTEM_PROMPT).
Proof.
  destruct default_prompt_facts as (Hne & Hlen & Hnc).
  split; [|split; [|split]].
  - destruct (promptToUse_cases systemPrompt) as [->|(s & _ & _ & H & _)]; assumption.
  - destruct (promptToUse_cases systemPrompt) as [->|(s & _ & _ & _ & H & _ & H')];
      unfold maxPromptLength in *; lia.
  - destruct (promptToUse_cases systemPrompt) as [->|(s & _ & -> & _)]; [assumption|].
    apply Forall_firstn', strip_controls_no_controls.
  - intros Hc. destruct (promptToUse_cases systemPrompt) as [->|(s & -> & _ & _ & _ & H1 & H2)];
      [reflexivity|]. destruct Hc; lia.
Qed.

Lemma promptToUse_bounds_witness :
  promptToUse (JSString [32; 9; 32]) = DEFAULT_SYSTEM_PROMPT.
Proof.
  apply (proj2 (proj2 (proj2 (promptToUse_bounds (JSString [32; 9; 32]))))).
  left. vm_compute. reflexivity.
Defined.

Lemma join_length (sep : list Z) (l : list (list Z)) :
  length (join sep l) = (length (concat l) + length sep * (length l - 1))%nat.
Proof.
  induction l as [|x [|y r] IH]; [simpl; lia| |].
  - cbn [join concat length]. rewrite app_nil_r. lia.
  - change (join sep (x :: y :: r)) with (x ++ sep ++ join sep (y :: r)).
    change (concat (x :: y :: r)) with (x ++ concat (y :: r)).
    rewrite !length_app, IH. cbn [length]. nia.
Qed.

(** With a stored prompt of at most 49505 code units once trimmed (or the
    default prompt), the combined prompt built from any comment list that
    [validateComments] accepts never fails the [maxPromptLength] check. *)
Theorem fullPrompt_fits (comments : option (list js_value)) (r : list (list Z))
    (systemPrompt : js_value)
    (H : validateComments comments = Ok r)
    (Hp : match systemPrompt with JSString s => Z.of_nat (length (trim s)) <= 49505 | _ => True end) :
  buildFullPrompt (promptToUse systemPrompt) r
  = Ok (promptToUse systemPrompt ++ join separator r).
Proof.
  destruct (validateComments_ok comments r H) as (l & _ & H1 & H2 & H3 & _ & H4).
  pose proof (ValidationFacts.length_filter_le keep l) as H5.
  assert (Hlp : Z.of_nat (length (promptToUse systemPrompt)) <= 49505).
  { destruct default_prompt_facts as (_ & Hd & _).
    destruct (promptToUse_cases systemPrompt) as [->|(s & -> & _ & _ & Hs & _)]; lia. }
  unfold buildFullPrompt.
  rewrite length_app, join_length. unfold separator, maxPromptLength. cbn [length].
  destruct (100000 <? _) eqn:E; [|reflexivity].
  apply Z.ltb_lt in E. lia.
Qed.

Lemma fullPrompt_fits_witness :
  buildFullPrompt (promptToUse JSUndefined) [js_str "hello world"]
  = Ok (promptToUse JSUndefined ++ join separator [js_str "hello world"]).
Proof.
  apply (fullPrompt_fits (Some [JSString (js_str "  hello world "); JSNumber 3])
           [js_str "hello world"] JSUndefined); [vm_compute; reflexivity | exact I].
Defined.

Lemma strip_prefix_app (p s t : list Z) : strip_prefix p s = Some t -> s = p ++ t.
Proof.
  revert s. induction p as [|c p IH]; intros s H; simpl in H.
  - injection H as <-. reflexivity.
  - destruct s as [|d s]; [discriminate|].
    destruct (c =? d) eqn:E; [|discriminate].
    apply Z.eqb_eq in E as ->. simpl. f_equal. apply IH, H.
Qed.

Lemma existsb_forallb (f g : Z -> bool) (s : list Z) :
  (forall c, f c = true -> g c = false) -> forallb f s = true -> existsb g s = false.
Proof.
  intros Hfg. induction s as [|c r IH]; simpl; [reflexivity|].
  intros H. apply andb_prop in H as [Hc Hr]. rewrite (Hfg c Hc). simpl. auto.
Qed.

Ltac char_class :=
  let c := fresh "c" in let Hc := fresh "Hc" in
  intros c Hc; apply not_true_iff_false; intros Hg;
  unfold is_key_char, is_alnum in *;
  repeat rewrite ?orb_true_iff, ?andb_true_iff, ?Z.eqb_eq, ?Z.leb_le in Hc, Hg; lia.

(** No key that matches a [keyPattern] contains [<], [>], a double quote or [']. *)
Lemma key_test_not_suspicious (p : key_pattern) (k : list Z) :
  key_test p k = true -> suspicious k = false.
Proof.
  unfold suspicious. destruct p; cbn [key_test].
  - destruct (strip_prefix (js_str "sk-ant-") k) as [[|c r]|] eqn:E; try discriminate.
    apply strip_prefix_app in E as ->. rewrite existsb_app.
    intros H. rewrite (existsb_forallb is_key_char _ (c :: r)); [reflexivity|char_class|exact H].
  - destruct (strip_prefix (js_str "sk-") k) as [[|c r]|] eqn:E; try discriminate.
    apply strip_prefix_app in E as ->. rewrite existsb_app.
    intros H. rewrite (existsb_forallb is_alnum _ (c :: r)); [reflexivity|char_class|exact H].
  - intros H. apply andb_prop in H as [_ H].
    apply (existsb_forallb is_key_char); [char_class|exact H].
Qed.

(** The [API key contains invalid characters] error of [validateApiKey] is
    never thrown: a key that passes its provider's [keyPattern] holds none
    of the characters checked, and any other key is rejected before. *)
Theorem validateApiKey_invalid_chars_unreachable (apiKey : js_value) (provider : list Z) :
  validateApiKey apiKey provider <> Throw invalid_chars_message.
Proof.
  unfold validateApiKey. destruct apiKey as [k| | | | |]; try discriminate.
  destruct ((length k <? 10)%nat || (maxApiKeyLength <? length k)%nat); [discriminate|].
  destruct (AI_PROVIDERS provider) as [cfg| |]; try discriminate.
  destruct (key_test (keyPattern cfg) k) eqn:E; simpl.
  - rewrite (key_test_not_suspicious _ _ E). discriminate.
  - vm_compute. intros Heq. injection Heq. discriminate.
Qed.

Lemma validateApiKey_invalid_chars_unreachable_witness :
  validateApiKey (JSString (js_str "sk-abc<def12")) (js_str "openai")
  <> Throw invalid_chars_message.
Proof. apply validateApiKey_invalid_chars_unreachable. Defined.

Definition in_window (t0 t : Z) : Prop := t0 <= t < t0 + 60000.

Lemma recent_in_window (t0 now : Z) (l : list Z) :
  Forall (in_window t0) l -> in_window t0 now -> RateLimit.recent now l = l.
Proof.
  intros Hl Hn. unfold RateLimit.recent, RateLimit.windowMs, in_window in *.
  induction Hl as [|t r Ht _ IH]; simpl; [reflexivity|].
  replace (now - t <? 60000) with true by (symmetry; apply Z.ltb_lt; lia).
  f_equal. exact IH.
Qed.

Lemma summarize_all_fill (tabId t0 : Z) (reqs : list (Z * option (list js_value))) :
  forall st : RateLimit.requests,
  Forall (in_window t0) (default [] (st !! tabId)) ->
  Forall (fun '(t, _) => in_window t0 t) reqs ->
  Forall (in_window t0) (default [] (summarize_all st tabId reqs !! tabId)) /\
  (Nat.min 10 (length (default [] (st !! tabId)) + length reqs)
   <= length (default [] (summarize_all st tabId reqs !! tabId)))%nat.
Proof.
  induction reqs as [|[now c] r IH]; intros st Hst Hr.
  - cbn [summarize_all length]. split; [exact Hst | lia].
  - apply Forall_cons in Hr as [Hn Hr]. cbn [summarize_all length].
    unfold summarize_checks, RateLimit.checkRateLimit.
    rewrite (recent_in_window t0 now) by assumption.
    unfold RateLimit.maxRequests.
    destruct (10 <=? length (default [] (st !! tabId)))%nat eqn:E; cbn [fst].
    + apply Nat.leb_le in E. destruct (IH st Hst Hr) as [H1 H2]. split; [exact H1 | lia].
    + apply Nat.leb_gt in E.
      set (st' := <[tabId := default [] (st !! tabId) ++ [now]]> st).
      assert (Hl : default [] (st' !! tabId) = default [] (st !! tabId) ++ [now])
        by (unfold st'; rewrite lookup_insert_eq; reflexivity).
      assert (Hst' : Forall (in_window t0) (default [] (st' !! tabId))).
      { rewrite Hl. apply Forall_app. split; [exact Hst | constructor; [exact Hn | constructor]]. }
      destruct (IH st' Hst' Hr) as [H1 H2]. split; [exact H1|].
      rewrite Hl, length_app in H2. cbn [length] in H2. lia.
Qed.

(** The rate limit is checked before the comments are validated, so every
    summarize request of a tab counts toward its quota whatever its
    comments: after ten requests within one window, a further request in
    that window is refused with the rate-limit error, even if all ten
    earlier ones carried comments [validateComments] rejects. *)
Theorem invalid_requests_consume_quota (st : RateLimit.requests) (tabId t0 now : Z)
    (reqs : list (Z * option (list js_value))) (comments : option (list js_value))
    (Hn : length reqs = 10%nat)
    (Hw : Forall (fun '(t, _) => t0 <= t < t0 + 60000) reqs)
    (Hnow : t0 <= now < t0 + 60000)
    (Hst : Forall (fun t => t0 <= t < t0 + 60000) (default [] (st !! tabId))) :
  summarize_checks (summarize_all st tabId reqs) tabId now comments
  = (summarize_all st tabId reqs, Throw RateLimit.rate_limit_message).
Proof.
  destruct (summarize_all_fill tabId t0 reqs st Hst Hw) as [H1 H2].
  rewrite Hn in H2.
  unfold summarize_checks, RateLimit.checkRateLimit.
  rewrite (recent_in_window t0 now) by assumption.
  unfold RateLimit.maxRequests.
  replace (10 <=? length (default [] (summarize_all st tabId reqs !! tabId)))%nat with true
    by (symmetry; apply Nat.leb_le; lia).
  reflexivity.
Qed.

Lemma invalid_requests_consume_quota_witness :
  summarize_checks
    (summarize_all ∅ 7 [(0, None); (1, None); (2, None); (3, None); (4, None);
                        (5, None); (6, None); (7, None); (8, None); (9, Some [])]) 7 10
    (Some [JSString (js_str "a valid comment")])
  = (summarize_all ∅ 7 [(0, None); (1, None); (2, None); (3, None); (4, None);
                        (5, None); (6, None); (7, None); (8, None); (9, Some [])],
     Throw RateLimit.rate_limit_message).
Proof.
  apply (invalid_requests_consume_quota ∅ 7 0 10); [reflexivity| |lia|constructor].
  repeat (constructor; [cbn; lia|]). constructor.
Defined.

End BackgroundFacts.

Module ResponseSanitizerFacts.
Import Sanitizer ResponseSanitizer.

Lemma fold_lower (d c : Z) : fold d = c -> (c < 97 \/ 122 < c) -> d = c.
Proof. unfold fold. destruct ((65 <=? d) && (d <=? 90)) eqn:E; [|auto]. lia. Qed.

Lemma ci_prefix_in (p t : list Z) (c : Z) :
  ci_prefix p t = true -> In c p -> (c < 97 \/ 122 < c) -> In c t.
Proof.
  revert t. induction p as [|x p IH]; intros t H Hin Hc; [destruct Hin|].
  destruct t as [|d t]; [discriminate|]. cbn [ci_prefix] in H.
  apply andb_prop in H as [Hd Ht]. apply Z.eqb_eq in Hd.
  destruct Hin as [<-|Hin]; [left; apply fold_lower; assumption|].
  right. apply IH; assumption.
Qed.

Lemma In_skipn' (x : Z) (n : nat) (l : list Z) : In x (skipn n l) -> In x l.
Proof.
  revert l. induction n as [|n IH]; intros [|y l]; simpl; auto.
Qed.

Lemma block_match_head (tag t : list Z) : block_match tag t <> 0%nat -> In 60 t.
Proof.
  unfold block_match. destruct (ci_prefix (60 :: tag) t) eqn:E; [|simpl; congruence].
  intros _. apply (ci_prefix_in _ _ _ E); [left; reflexivity | lia].
Qed.

Lemma void_match_head (tag t : list Z) : void_match tag t <> 0%nat -> In 60 t.
Proof.
  unfold void_match. destruct (ci_prefix (60 :: tag) t) eqn:E; [|simpl; congruence].
  intros _. apply (ci_prefix_in _ _ _ E); [left; reflexivity | lia].
Qed.

Lemma literal_match_in (p t : list Z) (c : Z) :
  literal_match p t <> 0%nat -> In c p -> (c < 97 \/ 122 < c) -> In c t.
Proof.
  unfold literal_match. destruct (ci_prefix p t) eqn:E; [|congruence].
  intros _ Hp Hc. apply (ci_prefix_in _ _ _ E); assumption.
Qed.

Lemma handler_match_eq (t : list Z) : handler_match t <> 0%nat -> In 61 t.
Proof.
  unfold handler_match. cbv zeta. destruct (ci_prefix (js_str "on") t); [|congruence].
  destruct (count_while is_word (skipn 2 t)) as [|w]; [congruence|].
  lazymatch goal with
  | |- context [skipn ?a (skipn ?b (skipn 2 t))] =>
      assert (Hsub : forall y, In y (skipn a (skipn b (skipn 2 t))) -> In y t)
        by (intros y Hy; apply (In_skipn' _ 2), (In_skipn' _ b), (In_skipn' _ a), Hy);
      destruct (skipn a (skipn b (skipn 2 t))) as [|d rest]
  end; [congruence|].
  intros H. apply Hsub. left.
  destruct d as [|p|p]; simpl in H; try congruence.
  repeat (destruct p as [p|p|]; simpl in H; try congruence).
Qed.

Lemma call_match_in (p : list Z) (c : Z) (t : list Z) : call_match p c t <> 0%nat -> In c t.
Proof.
  unfold call_match. destruct (ci_prefix p t); [|congruence].
  set (r := skipn (length p) t).
  destruct (skipn (count_while is_js_whitespace r) r) as [|d rest] eqn:E; [congruence|].
  destruct (d =? c) eqn:Ed; [|congruence]. apply Z.eqb_eq in Ed as ->. intros _.
  apply (In_skipn' _ (length p)). apply (In_skipn' _ (count_while is_js_whitespace r)).
  fold r. rewrite E. left. reflexivity.
Qed.

Section Unchanged.
Variable bad : Z -> bool.
Variable m : list Z -> nat.
Hypothesis Htrig : forall t, m t <> 0%nat -> exists c, In c t /\ bad c = true.

Lemma replace_from_id (f : nat) (s : list Z) :
  forallb (fun c => negb (bad c)) s = true -> replace_from m f s = s.
Proof.
  revert s. induction f as [|f IH]; intros s Hs; [reflexivity|].
  destruct s as [|c r]; [reflexivity|]. cbn [replace_from].
  destruct (m (c :: r)) eqn:E.
  - f_equal. apply IH. cbn [forallb] in Hs. apply andb_prop in Hs. tauto.
  - destruct (Htrig (c :: r)) as (x & Hx & Hb); [congruence|].
    apply forallb_forall with (x := x) in Hs; [|exact Hx].
    rewrite Hb in Hs. discriminate.
Qed.

Lemma replace_all_id (s : list Z) :
  forallb (fun c => negb (bad c)) s = true -> replace_all m s = s.
Proof. apply replace_from_id. Qed.

End Unchanged.

Lemma In_of_existsb (c : Z) (l : list Z) : existsb (Z.eqb c) l = true -> In c l.
Proof.
  intros H. apply existsb_exists in H as (x & Hx & E). apply Z.eqb_eq in E. subst. exact Hx.
Qed.

Ltac solve_trig :=
  let t := fresh "t" in let Ht := fresh "Ht" in
  intros t Ht;
  first
  [ exists 60; split; [eapply block_match_head; exact Ht | reflexivity]
  | exists 60; split; [eapply void_match_head; exact Ht | reflexivity]
  | exists 61; split; [apply handler_match_eq; exact Ht | reflexivity]
  | exists 58; split;
      [eapply literal_match_in; [exact Ht | apply In_of_existsb; reflexivity | lia]
      | reflexivity]
  | eexists; split; [eapply call_match_in; exact Ht | reflexivity] ].

Ltac drop_unchanged bad H :=
  repeat match goal with
  | |- context [replace_all ?m ?s] =>
      is_var s; rewrite (replace_all_id bad m ltac:(solve_trig) s H)
  end.

(** A response without [<], [:], [=] or [(] passes every replacement of
    the response sanitizers unchanged: [TextSanitizer.sanitizeApiResponse]
    (and [APIService.sanitizeApiResponse]) only trims it and cuts it to
    5000 code units, the [background.js] [sanitizeApiResponse] only drops
    its control characters, trims it and cuts it to 10000. *)
Theorem plain_text_unchanged (s : list Z)
    (H : forallb (fun c => negb ((c =? 60) || (c =? 58) || (c =? 61) || (c =? 40))) s = true) :
  TextSanitizer_sanitizeApiResponse (JSString s) = substring0 (trim s) 5000 /\
  sanitizeApiResponse (JSString s) = substring0 (trim (strip_controls s)) (Z.to_nat 10000).
Proof.
  pose (bad := fun c => (c =? 60) || (c =? 58) || (c =? 61) || (c =? 40)).
  split.
  - cbn [TextSanitizer_sanitizeApiResponse]. drop_unchanged bad H.
    reflexivity.
  - cbn [sanitizeApiResponse]. unfold response_filters. cbn [fold_left].
    drop_unchanged bad H. reflexivity.
Qed.

Lemma plain_text_unchanged_witness :
  TextSanitizer_sanitizeApiResponse (JSString (js_str " Great video, thanks! "))
  = substring0 (trim (js_str " Great video, thanks! ")) 5000.
Proof.
  apply (proj1 (plain_text_unchanged (js_str " Great video, thanks! ") ltac:(vm_compute; reflexivity))).
Defined.

Lemma replace_from_enough (m : list Z -> nat) (f g : nat) (s : list Z) :
  (length s <= f)%nat -> (length s <= g)%nat -> replace_from m f s = replace_from m g s.
Proof.
  revert g s. induction f as [|f IH]; intros g s Hf Hg.
  - destruct s; [destruct g; reflexivity | simpl in Hf; lia].
  - destruct g as [|g]; [destruct s; [reflexivity | simpl in Hg; lia]|].
    destruct s as [|c r]; [reflexivity|]. cbn [replace_from]. simpl in Hf, Hg.
    destruct (m (c :: r)).
    + f_equal. apply IH; lia.
    + apply IH; rewrite length_skipn; simpl; lia.
Qed.

Lemma replace_from_app_id (m : list Z -> nat) (x y : list Z) (f : nat) :
  (forall c t, In c x -> m (c :: t) = 0%nat) ->
  replace_from m (length x + f) (x ++ y) = x ++ replace_from m f y.
Proof.
  intros Hx. induction x as [|c r IH]; [reflexivity|].
  cbn [length Nat.add app replace_from].
  rewrite (Hx c (r ++ y)) by (left; reflexivity).
  f_equal. apply IH. intros d t Hd. apply Hx. right. exact Hd.
Qed.

Lemma block_match_cons (tag : list Z) (c : Z) (t : list Z) :
  c <> 60 -> block_match tag (c :: t) = 0%nat.
Proof.
  intros Hc. destruct (block_match tag (c :: t)) eqn:E; [reflexivity|].
  exfalso. unfold block_match in E. cbn [ci_prefix] in E.
  destruct (fold c =? 60) eqn:F; [|discriminate].
  apply Z.eqb_eq, fold_lower in F; [contradiction | lia].
Qed.

Lemma replace_from_keep (m : list Z -> nat) (f : nat) (c : Z) (r : list Z) :
  m (c :: r) = 0%nat -> replace_from m (S f) (c :: r) = c :: replace_from m f r.
Proof. intros E. cbn [replace_from]. rewrite E. reflexivity. Qed.

Lemma replace_from_drop (m : list Z -> nat) (f n : nat) (c : Z) (r : list Z) :
  m (c :: r) = S n -> replace_from m (S f) (c :: r) = replace_from m f (skipn (S n) (c :: r)).
Proof. intros E. cbn [replace_from]. rewrite E. reflexivity. Qed.

Lemma trim_tagged (out : list Z) (a b : Z) (mid : list Z) :
  out = a :: mid ++ [b] -> is_js_whitespace a = false -> is_js_whitespace b = false ->
  trim out = out.
Proof.
  intros -> Ha Hb. unfold trim, trim_end.
  rewrite (SanitizerFacts.trim_start_id (a :: mid ++ [b])) by exact Ha.
  rewrite (SanitizerFacts.trim_start_id (rev (a :: mid ++ [b]))).
  - apply rev_involutive.
  - rewrite app_comm_cons, rev_app_distr. exact Hb.
Qed.

(** The sanitizer makes a single pass: a script block hidden inside the
    word [script] of another one is removed and leaves the outer block
    behind.  For any body without [<], [:], [=] or [(],
    [TextSanitizer.sanitizeApiResponse] turns
    [<scr<script></script>ipt>body</script>] into
    [<script>body</script>]. *)
Theorem nested_script_survives (body : list Z)
    (H : forallb (fun c => negb ((c =? 60) || (c =? 58) || (c =? 61) || (c =? 40))) body = true)
    (Hlen : (length body <= 4983)%nat) :
  TextSanitizer_sanitizeApiResponse
    (JSString (js_str "<scr<script></script>ipt>" ++ body ++ js_str "</script>"))
  = js_str "<script>" ++ body ++ js_str "</script>".
Proof.
  change (js_str "<scr<script></script>ipt>") with
    [60; 115; 99; 114; 60; 115; 99; 114; 105; 112; 116; 62; 60; 47; 115; 99; 114;
     105; 112; 116; 62; 105; 112; 116; 62].
  change (js_str "</script>") with [60; 47; 115; 99; 114; 105; 112; 116; 62].
  change (js_str "<script>") with [60; 115; 99; 114; 105; 112; 116; 62].
  set (close := [60; 47; 115; 99; 114; 105; 112; 116; 62]).
  cbn [TextSanitizer_sanitizeApiResponse].
  assert (Hstep : replace_all (block_match (js_str "script"))
    ([60; 115; 99; 114; 60; 115; 99; 114; 105; 112; 116; 62; 60; 47; 115; 99; 114;
      105; 112; 116; 62; 105; 112; 116; 62] ++ body ++ close)
    = [60; 115; 99; 114; 105; 112; 116; 62] ++ body ++ close).
  { unfold replace_all.
    replace (length _) with (S (S (S (S (S (S (S (S (S (length body + 25))))))))))
      by (rewrite !length_app; unfold close; simpl; lia).
    cbn [app].
    do 4 (rewrite replace_from_keep by reflexivity).
    rewrite (replace_from_drop _ _ 16) by reflexivity. cbn [skipn].
    do 4 (rewrite replace_from_keep by reflexivity).
    rewrite replace_from_app_id.
    - reflexivity.
    - intros c t Hc. apply block_match_cons. intros ->.
      apply forallb_forall with (x := 60) in H; [discriminate | exact Hc]. }
  rewrite Hstep.
  set (out := [60; 115; 99; 114; 105; 112; 116; 62] ++ body ++ close).
  pose (bad := fun c => (c =? 58) || (c =? 61) || (c =? 40)).
  assert (Hout : forallb (fun c => negb (bad c)) out = true).
  { unfold out. rewrite !forallb_app. rewrite andb_true_iff; split; [reflexivity|].
    rewrite andb_true_iff; split; [|reflexivity].
    apply forallb_forall. intros c Hc. apply forallb_forall with (x := c) in H; [|exact Hc].
    unfold bad. destruct (c =? 60), (c =? 58), (c =? 61), (c =? 40); simpl in *; congruence. }
  drop_unchanged bad Hout.
  rewrite (trim_tagged out 60 62 ([115; 99; 114; 105; 112; 116; 62] ++ body
                                   ++ [60; 47; 115; 99; 114; 105; 112; 116])); try reflexivity.
  - unfold substring0. apply firstn_all2. unfold out, close. rewrite !length_app. simpl. lia.
  - unfold out, close. simpl. rewrite <- !app_assoc. reflexivity.
Qed.

Lemma nested_script_survives_witness :
  TextSanitizer_sanitizeApiResponse
    (JSString (js_str "<scr<script></script>ipt>" ++ js_str "alert document.cookie" ++ js_str "</script>"))
  = js_str "<script>" ++ js_str "alert document.cookie" ++ js_str "</script>".
Proof.
  apply nested_script_survives; [vm_compute; reflexivity | vm_compute; lia].
Defined.

(** Whatever the response, [sanitizeApiResponse] of [background.js]
    returns at most 10000 code units, without control characters and not
    starting with whitespace. *)
Theorem sanitizeApiResponse_clean (text : js_value) :
  Z.of_nat (length (sanitizeApiResponse text)) <= 10000 /\
  no_controls (sanitizeApiResponse text) /\
  starts_nonws (sanitizeApiResponse text).
Proof.
  destruct text as [s| | | | |];
    try (split; [vm_compute; discriminate | split;
         [apply BackgroundFacts.no_controls_forallb; vm_compute; reflexivity
         | exact eq_refl]]).
  cbn [sanitizeApiResponse]. unfold substring0.
  set (u := fold_left _ _ s).
  split; [|split].
  - rewrite length_firstn. lia.
  - apply SanitizerFacts.Forall_firstn', SanitizerFacts.Forall_trim,
      SanitizerFacts.strip_controls_no_controls.
  - apply SanitizerFacts.firstn_starts, SanitizerFacts.trim_starts.
Qed.

End ResponseSanitizerFacts.
